(** * notion-sync: the Markdown to Notion-block converter

    A shallow embedding of [NotionSync.markdown_to_blocks],
    [NotionSync._heading_block] and [NotionSync._parse_rich_text] of
    [notion-sync.py], and the properties of the converter proved on it;
    then of [NotionSync.__init__] and [NotionSync._load_api_key], with what
    they read of the environment and of the key file as an argument.

    Conventions of the embedding.

    - A Python [str] is a [string]; a character is a code point below 256.
      On that range [str.isspace] holds of 9..13, 28..32, 133 and 160, and the
      regular expression class [\d] holds of the ten digits ['0'..'9'].
    - Python integers used as indices are [nat]: every index the converter
      computes is non-negative.  The sentinel [-1] returned by [str.find] is
      [None].
    - A subscript [s[i]] raises [IndexError] when [i] is out of range.  The
      functions return a [result]: a value, [IndexError], or [OutOfFuel] when
      the bound given to a [while] loop is used up.
    - [blocks.append(x)] is [blocks ++ [x]]. *)

From Stdlib Require Import String Ascii List Arith Bool Lia.
Import ListNotations.

Local Open Scope string_scope.
Local Open Scope list_scope.
Local Open Scope nat_scope.

(** ** Results and loops *)

Inductive result (A : Type) : Type :=
| Ok (a : A)
| IndexError
| OutOfFuel.

Arguments Ok {A} a.
Arguments IndexError {A}.
Arguments OutOfFuel {A}.

Definition bind {A B : Type} (m : result A) (k : A -> result B) : result B :=
  match m with
  | Ok a => k a
  | IndexError => IndexError
  | OutOfFuel => OutOfFuel
  end.

Notation "x <- m ;; k" := (bind m (fun x => k))
  (at level 61, m at next level, right associativity).
Notation "' p <- m ;; k" := (bind m (fun x => let p := x in k))
  (at level 61, p pattern, m at next level, right associativity).

(** [while fuel cond body s] is [while cond(s): s = body(s)], run for at most
    [fuel] iterations. *)
Fixpoint while {S : Type} (fuel : nat) (cond : S -> result bool)
    (body : S -> result S) (s : S) {struct fuel} : result S :=
  match cond s with
  | Ok true =>
      match fuel with
      | O => OutOfFuel
      | Datatypes.S fuel' =>
          match body s with
          | Ok s' => while fuel' cond body s'
          | IndexError => IndexError
          | OutOfFuel => OutOfFuel
          end
      end
  | Ok false => Ok s
  | IndexError => IndexError
  | OutOfFuel => OutOfFuel
  end.

(** ** Python strings and lists *)

Module Py.

(** [s[i]] on a string. *)
Definition getitem (s : string) (i : nat) : result ascii :=
  match get i s with
  | Some c => Ok c
  | None => IndexError
  end.

(** [l[i]] on a list. *)
Definition getitem_list {A : Type} (l : list A) (i : nat) : result A :=
  match nth_error l i with
  | Some x => Ok x
  | None => IndexError
  end.

(** [s[a:b]] and [s[a:]], for non-negative [a] and [b]. *)
Definition slice (s : string) (a b : nat) : string := substring a (b - a) s.
Definition slice_from (s : string) (a : nat) : string :=
  substring a (String.length s - a) s.

(** [s.startswith(p)]. *)
Definition startswith (s p : string) : bool := prefix p s.

(** [s.find(sub, start)]; [None] stands for [-1]. *)
Definition find (s sub : string) (start : nat) : option nat :=
  index start sub s.

(** [sub in s]. *)
Definition contains (sub s : string) : bool :=
  match find s sub 0 with
  | Some _ => true
  | None => false
  end.

(** [if s:], the truth value of a string. *)
Definition truthy (s : string) : bool :=
  match s with
  | EmptyString => false
  | String _ _ => true
  end.

(** [c.isspace()]. *)
Definition isspace (c : ascii) : bool :=
  let n := nat_of_ascii c in
  ((9 <=? n) && (n <=? 13)) || ((28 <=? n) && (n <=? 32))
  || (n =? 133) || (n =? 160).

Fixpoint lstrip (s : string) : string :=
  match s with
  | EmptyString => EmptyString
  | String c s' => if isspace c then lstrip s' else s
  end.

Fixpoint rstrip (s : string) : string :=
  match s with
  | EmptyString => EmptyString
  | String c s' =>
      match rstrip s' with
      | EmptyString => if isspace c then EmptyString else String c EmptyString
      | String _ _ as r => String c r
      end
  end.

(** [s.strip()]. *)
Definition strip (s : string) : string := rstrip (lstrip s).

(** [s.split(sep)] for a separator of one character. *)
Fixpoint split (s : string) (sep : ascii) : list string :=
  match s with
  | EmptyString => [EmptyString]
  | String c s' =>
      if Ascii.eqb c sep then EmptyString :: split s' sep
      else match split s' sep with
           | [] => [String c EmptyString]
           | f :: fs => String c f :: fs
           end
  end.

(** [sep.join(l)]. *)
Definition join (sep : string) (l : list string) : string :=
  String.concat sep l.

(** [l[1:-1]]. *)
Definition slice_1_m1 {A : Type} (l : list A) : list A := removelast (tl l).

(** [l[:n]]. *)
Definition slice_to {A : Type} (l : list A) (n : nat) : list A := firstn n l.

(** [x in l] for a list of strings. *)
Definition mem (x : string) (l : list string) : bool :=
  existsb (String.eqb x) l.

(** The regular expression [^\d+\. ], used by [re.match] and [re.sub].
    [\d+] is greedy; the character after the digits it takes is not a digit,
    so giving digits back can never produce a match. *)
Definition isdigit (c : ascii) : bool :=
  let n := nat_of_ascii c in (48 <=? n) && (n <=? 57).

Fixpoint skip_digits (s : string) : string :=
  match s with
  | EmptyString => EmptyString
  | String c s' => if isdigit c then skip_digits s' else s
  end.

(** What follows the match of [^\d+\. ] at the start of [s], if it matches. *)
Definition re_numbered (s : string) : option string :=
  match s with
  | EmptyString => None
  | String c s' =>
      if isdigit c then
        let r := skip_digits s' in
        if startswith r ". " then Some (slice_from r 2) else None
      else None
  end.

(** [re.match(r'^\d+\. ', s)], as a truth value. *)
Definition re_match_numbered (s : string) : bool :=
  match re_numbered s with
  | Some _ => true
  | None => false
  end.

(** [re.sub(r'^\d+\. ', '', s)]: the pattern is anchored, so at most the
    match at the start is replaced. *)
Definition re_sub_numbered (s : string) : string :=
  match re_numbered s with
  | Some r => r
  | None => s
  end.

(** The line feed, the character and the string of that character. *)
Definition LF : ascii := "010".
Definition nl : string := String LF "".

End Py.

(** ** Rich text and blocks *)

(** The ["annotations"] entry of a rich-text object: absent,
    [{"bold": True}] or [{"italic": True}]. *)
Inductive annotations : Type :=
| no_annotations
| bold
| italic.

(** A rich-text object
    [{"type": "text", "text": {"content": c, "link": {"url": u}},
      "annotations": a}]; the ["link"] and ["annotations"] entries may be
    absent. *)
Record rich_text : Type := mk_rich_text {
  content : string;
  link : option string;
  annot : annotations
}.

Definition text_span (c : string) : rich_text := mk_rich_text c None no_annotations.
Definition bold_span (c : string) : rich_text := mk_rich_text c None bold.
Definition italic_span (c : string) : rich_text := mk_rich_text c None italic.
Definition link_span (c url : string) : rich_text :=
  mk_rich_text c (Some url) no_annotations.

Inductive heading_type : Type :=
| heading_1
| heading_2
| heading_3.

(** A block [{"object": "block", "type": t, t: {...}}]. *)
Inductive block : Type :=
| heading (t : heading_type) (rt : list rich_text)
| divider
| quote (rt : list rich_text)
| code (language : string) (rt : list rich_text)
| bulleted_list_item (rt : list rich_text)
| numbered_list_item (rt : list rich_text)
| paragraph (rt : list rich_text).

(** ** [_parse_rich_text] *)

(** The state of the scan: the position [i], the text accumulated in
    [current], and the spans in [result]. *)
Definition scan_state : Type := (nat * string * list rich_text)%type.

(** [if current: result.append(plain current); current = ""], the value of
    [result] afterwards ([current] is empty afterwards in both cases). *)
Definition flush (current : string) (result : list rich_text) : list rich_text :=
  if Py.truthy current then result ++ [text_span current] else result.

(** [text[i] == '*' and (i == 0 or text[i-1] != '*')]. *)
Definition italic_here (text : string) (i : nat) : result bool :=
  c <- Py.getitem text i ;;
  if Ascii.eqb c "*" then
    if i =? 0 then Ok true
    else p <- Py.getitem text (i - 1) ;; Ok (negb (Ascii.eqb p "*"))
  else Ok false.

(** The end of the link that starts at [i]: the positions [j] of the first
    ["]"] and [k] of the first [")"] after it, when ["("] follows ["]"]. *)
Definition link_at (text : string) (i : nat) : option (nat * nat) :=
  match Py.find text "]" i with
  | Some j =>
      if (Py.slice text (j + 1) (j + 2) =? "(")%string then
        match Py.find text ")" (j + 1) with
        | Some k => Some (j, k)
        | None => None
        end
      else None
  | None => None
  end.

(** One iteration of the [while i < len(text)] loop. *)
Definition scan_body (text : string) (st : scan_state) : result scan_state :=
  let '(i, current, result) := st in
  if (Py.slice text i (i + 2) =? "**")%string then
    let result := flush current result in
    let j := match Py.find text "**" (i + 2) with
             | Some j => j
             | None => String.length text
             end in
    Ok (j + 2, "", result ++ [bold_span (Py.slice text (i + 2) j)])
  else
    it <- italic_here text i ;;
    if it then
      let result := flush current result in
      let j := match Py.find text "*" (i + 1) with
               | Some j => j
               | None => String.length text
               end in
      Ok (j + 1, "", result ++ [italic_span (Py.slice text (i + 1) j)])
    else
      let fall_through current result :=
        c <- Py.getitem text i ;;
        Ok (i + 1, (current ++ String c "")%string, result) in
      if (Py.slice text i (i + 1) =? "[")%string then
        let result := flush current result in
        match link_at text i with
        | Some (j, k) =>
            Ok (k + 1, "",
                result ++ [link_span (Py.slice text (i + 1) j)
                                     (Py.slice text (j + 2) k)])
        | None => fall_through "" result
        end
      else fall_through current result.

Definition scan_cond (text : string) (st : scan_state) : result bool :=
  let '(i, _, _) := st in Ok (i <? String.length text).

(** The list [result] when [_parse_rich_text] reaches its [return]. *)
Definition scan_spans (text : string) : result (list rich_text) :=
  '(_, current, result) <-
     while (String.length text) (scan_cond text) (scan_body text) (0, "", []) ;;
  Ok (flush current result).

(** [return result[0] if result else {"type": "text", "text": {"content": ""}}]. *)
Definition _parse_rich_text (text : string) : result rich_text :=
  result <- scan_spans text ;;
  match result with
  | [] => Ok (text_span "")
  | _ :: _ => Py.getitem_list result 0
  end.

(** ** [_heading_block] and [markdown_to_blocks] *)

Definition _heading_block (text : string) (t : heading_type) : result block :=
  s <- _parse_rich_text text ;;
  Ok (heading t [s]).

(** The state of the segmenter: the cursor [i] and the list [blocks]. *)
Definition seg_state : Type := (nat * list block)%type.

(** The marker that opens and closes a code block. *)
Definition fence : string := "```".

(** The inner loop of the code-block rule, on the cursor and [code_lines]. *)
Definition fence_cond (lines : list string) (st : nat * list string) : result bool :=
  let '(i, _) := st in
  if i <? List.length lines then
    l <- Py.getitem_list lines i ;;
    Ok (negb (Py.startswith l fence))
  else Ok false.

Definition fence_body (lines : list string) (st : nat * list string)
  : result (nat * list string) :=
  let '(i, code_lines) := st in
  l <- Py.getitem_list lines i ;;
  Ok (i + 1, code_lines ++ [l]).

(** One iteration of the [while i < len(lines)] loop. *)
Definition seg_body (lines : list string) (st : seg_state) : result seg_state :=
  let '(i, blocks) := st in
  line <- Py.getitem_list lines i ;;
  if negb (Py.truthy (Py.strip line)) then Ok (i + 1, blocks)
  else if Py.startswith line "# " then
    b <- _heading_block (Py.slice_from line 2) heading_1 ;;
    Ok (i + 1, blocks ++ [b])
  else if Py.startswith line "## " then
    b <- _heading_block (Py.slice_from line 3) heading_2 ;;
    Ok (i + 1, blocks ++ [b])
  else if Py.startswith line "### " then
    b <- _heading_block (Py.slice_from line 4) heading_3 ;;
    Ok (i + 1, blocks ++ [b])
  else if Py.mem (Py.strip line) ["---"; "***"; "___"] then
    Ok (i + 1, blocks ++ [divider])
  else if Py.startswith line "> " then
    Ok (i + 1, blocks ++ [quote [text_span (Py.slice_from line 2)]])
  else if Py.startswith line fence then
    let lang := if 3 <? String.length line then Py.strip (Py.slice_from line 3) else "" in
    '(i, code_lines) <-
       while (List.length lines) (fence_cond lines) (fence_body lines) (i + 1, []) ;;
    Ok (i + 1,
        blocks ++ [code (if Py.truthy lang then lang else "plain text")
                        [text_span (Py.join Py.nl code_lines)]])
  else if Py.startswith (Py.strip line) "- " || Py.startswith (Py.strip line) "* " then
    let text := Py.slice_from (Py.strip line) 2 in
    s <- _parse_rich_text text ;;
    Ok (i + 1, blocks ++ [bulleted_list_item [s]])
  else if Py.re_match_numbered line then
    let text := Py.re_sub_numbered line in
    s <- _parse_rich_text text ;;
    Ok (i + 1, blocks ++ [numbered_list_item [s]])
  else if Py.contains "|" line && negb (Py.startswith (Py.strip line) "|") then
    let cells := map Py.strip (Py.slice_1_m1 (Py.split line "|")) in
    let text := Py.join " | " cells in
    s <- _parse_rich_text text ;;
    Ok (i + 1, blocks ++ [paragraph [s]])
  else
    s <- _parse_rich_text line ;;
    Ok (i + 1, blocks ++ [paragraph [s]]).

Definition seg_cond (lines : list string) (st : seg_state) : result bool :=
  let '(i, _) := st in Ok (i <? List.length lines).

(** The list [blocks] when [markdown_to_blocks] reaches its [return]. *)
Definition all_blocks (content : string) : result (list block) :=
  let lines := Py.split content Py.LF in
  '(_, blocks) <-
     while (List.length lines) (seg_cond lines) (seg_body lines) (0, []) ;;
  Ok blocks.

(** [return blocks[:100]]. *)
Definition markdown_to_blocks (content : string) : result (list block) :=
  blocks <- all_blocks content ;;
  Ok (Py.slice_to blocks 100).

(** ** The client: [__init__] and [_load_api_key] *)

(** What the constructor reads outside the program: the value of
    [os.environ.get("NOTION_API_KEY")], [None] or a string, and the file
    [~/.config/notion/api_key], absent ([Path.exists()] is false) or with its
    text. *)
Record environment : Type := mk_environment {
  env_api_key : option string;
  api_key_file : option string
}.

(** The truth value of a value that is [None] or a string. *)
Definition truthy_opt (v : option string) : bool :=
  match v with
  | Some s => Py.truthy s
  | None => false
  end.

(** [a or b]. *)
Definition or_else (a b : option string) : option string :=
  if truthy_opt a then a else b.

(** [return os.environ.get("NOTION_API_KEY") or
            Path(f).expanduser().read_text().strip()
            if Path(f).expanduser().exists() else None]:
    a conditional expression binds weaker than [or], so the test on the
    file governs both operands of [or]. *)
Definition _load_api_key (e : environment) : option string :=
  match api_key_file e with
  | Some contents => or_else (env_api_key e) (Some (Py.strip contents))
  | None => None
  end.

Definition API_VERSION : string := "2025-09-03".

(** The outcome of [NotionSync(api_key)]: the object, with its [api_key] and
    [headers], or the [ValueError] raised. *)
Inductive constructed : Type :=
| NotionSync (api_key : string) (headers : list (string * string))
| ValueError (message : string).

Definition __init__ (api_key : option string) (e : environment) : constructed :=
  match or_else api_key (_load_api_key e) with
  | Some key =>
      if negb (Py.truthy key) then
        ValueError "NOTION_API_KEY not set. Run: export NOTION_API_KEY='your_key'"
      else
        NotionSync key
          [("Authorization", ("Bearer " ++ key)%string);
           ("Notion-Version", API_VERSION);
           ("Content-Type", "application/json")]
  | None =>
      ValueError "NOTION_API_KEY not set. Run: export NOTION_API_KEY='your_key'"
  end.

(** ** The vocabulary of the properties *)

(** [closing text sub start j]: [j] is where the marker [sub] that closes a
    span is taken to be, the first occurrence of [sub] from [start] on, or
    the end of the text when there is none. *)
Definition closing (text sub : string) (start j : nat) : Prop :=
  Py.find text sub start = Some j \/
  (Py.find text sub start = None /\ j = String.length text).

(** The iterations of the scan, by the branch taken. *)
Inductive scan_step (text : string) : scan_state -> scan_state -> Prop :=
| step_bold i current result j :
    closing text "**" (i + 2) j ->
    scan_step text (i, current, result)
      (j + 2, "", flush current result ++ [bold_span (Py.slice text (i + 2) j)])
| step_italic i current result j :
    closing text "*" (i + 1) j ->
    scan_step text (i, current, result)
      (j + 1, "", flush current result ++ [italic_span (Py.slice text (i + 1) j)])
| step_link i current result j k :
    Py.find text "]" i = Some j ->
    scan_step text (i, current, result)
      (k + 1, "",
       flush current result ++
       [link_span (Py.slice text (i + 1) j) (Py.slice text (j + 2) k)])
| step_bracket i current result c :
    scan_step text (i, current, result)
      (i + 1, String c "", flush current result)
| step_char i current result c :
    scan_step text (i, current, result)
      (i + 1, (current ++ String c "")%string, result).

(** The blocks that carry rich text carry exactly one span. *)
Definition one_span (b : block) : Prop :=
  match b with
  | divider => True
  | heading _ rt | quote rt | code _ rt | bulleted_list_item rt
  | numbered_list_item rt | paragraph rt => List.length rt = 1
  end.

(** The blocks the segmenter appends from the cursor [i] on. *)
Definition blocks_from (lines : list string) (i : nat) : result (list block) :=
  '(_, blocks) <-
     while (List.length lines) (seg_cond lines) (seg_body lines) (i, []) ;;
  Ok blocks.

(** The spans [_parse_rich_text] hands to its caller: it returns one object,
    which every caller puts in a list, [[self._parse_rich_text(text)]]. *)
Definition returned_spans (text : string) : result (list rich_text) :=
  s <- _parse_rich_text text ;;
  Ok [s].

(** The content of a span is free of the marker that closes it: no ["**"] in
    a bold span, no ["*"] in an italic span, no ["]"] in the text of a link. *)
Definition delimiter_free (s : rich_text) : Prop :=
  (annot s = bold -> Py.contains "**" (content s) = false) /\
  (annot s = italic -> Py.contains "*" (content s) = false) /\
  (link s <> None -> Py.contains "]" (content s) = false).

(** The rules before the quote rule: blank line, headings, divider. *)
Definition before_quote (line : string) : bool :=
  negb (Py.truthy (Py.strip line))
  || Py.startswith line "# " || Py.startswith line "## "
  || Py.startswith line "### "
  || Py.mem (Py.strip line) ["---"; "***"; "___"].

(** The lines of a code block that opens just before [ls]: the lines of
    [ls] before the first one that starts with the fence. *)
Fixpoint code_lines_of (ls : list string) : list string :=
  match ls with
  | [] => []
  | l :: ls' => if Py.startswith l fence then [] else l :: code_lines_of ls'
  end.

(** The language of the code block that the fence line [line] opens. *)
Definition fence_language (line : string) : string :=
  let rest := Py.strip (Py.slice_from line 3) in
  if Py.truthy rest then rest else "plain text".

(** [reached lines i blocks]: the loop of the segmenter, started on [lines],
    comes to the cursor [i] with the list [blocks]. *)
Inductive reached (lines : list string) : nat -> list block -> Prop :=
| reached_start : reached lines 0 []
| reached_step i blocks i' blocks' :
    reached lines i blocks ->
    i < List.length lines ->
    seg_body lines (i, blocks) = Ok (i', blocks') ->
    reached lines i' blocks'.

(** The rules before the table rule. *)
Definition before_table (line : string) : bool :=
  before_quote line || Py.startswith line "> " || Py.startswith line fence
  || (Py.startswith (Py.strip line) "- " || Py.startswith (Py.strip line) "* ")
  || Py.re_match_numbered line.

(** The text the table rule makes of a line. *)
Definition table_text (line : string) : string :=
  Py.join " | " (map Py.strip (Py.slice_1_m1 (Py.split line "|"))).

(** Every character of [s] is a digit. *)
Fixpoint all_digits (s : string) : bool :=
  match s with
  | EmptyString => true
  | String c s' => Py.isdigit c && all_digits s'
  end.

(** [at_line content i before line]: the loop of the segmenter comes to the
    line [line], at the cursor [i], with the blocks [before]. *)
Definition at_line (content : string) (i : nat) (before : list block)
    (line : string) : Prop :=
  reached (Py.split content Py.LF) i before /\
  nth_error (Py.split content Py.LF) i = Some line.

(** [emits content before b next]: the block [b] follows the blocks [before]
    in the list the segmenter builds, the blocks after it are those the loop
    appends from the cursor [next] on, and [markdown_to_blocks] returns the
    first 100 of them all. *)
Definition emits (content : string) (before : list block) (b : block)
    (next : nat) : Prop :=
  exists after,
    blocks_from (Py.split content Py.LF) next = Ok after /\
    all_blocks content = Ok (before ++ b :: after) /\
    markdown_to_blocks content = Ok (firstn 100 (before ++ b :: after)).

(** A character that opens no marker: neither [*] nor [[]. *)
Definition plain_char (c : ascii) : bool :=
  negb (Ascii.eqb c "*") && negb (Ascii.eqb c "[").

(** A text without [*] and without [[]. *)
Fixpoint plain_text (s : string) : bool :=
  match s with
  | EmptyString => true
  | String c s' => plain_char c && plain_text s'
  end.

(** A text that is empty or starts with [*] or [[]: where a run of plain
    characters ends. *)
Definition marker_or_end (s : string) : bool :=
  match s with
  | EmptyString => true
  | String c _ => negb (plain_char c)
  end.

(** What holds of every span the scan builds: a link carries no annotation
    and its url has no [")"]; a plain span that is no link has content. *)
Definition span_wf (s : rich_text) : Prop :=
  match link s with
  | Some url => annot s = no_annotations /\ Py.contains ")" url = false
  | None => annot s = no_annotations -> content s <> ""
  end.

(** A line [markdown_to_blocks] skips: nothing is left of it once trimmed. *)
Definition blank (line : string) : bool := negb (Py.truthy (Py.strip line)).

(** The marker of a heading of each level, with its space. *)
Definition heading_marker (t : heading_type) : string :=
  match t with
  | heading_1 => "# "
  | heading_2 => "## "
  | heading_3 => "### "
  end.

(** [not content.strip()], the test of [main] before it calls the client:
    on such a content it prints an error and exits with status 1. *)
Definition no_content (content : string) : bool :=
  negb (Py.truthy (Py.strip content)).

(** A string of white space only. *)
Fixpoint all_space (s : string) : bool :=
  match s with
  | EmptyString => true
  | String c s' => Py.isspace c && all_space s'
  end.

(** ** Reasoning about [while] *)

Section While.

Context {S : Type}.
Variable cond : S -> result bool.
Variable body : S -> result S.

Lemma while_unfold fuel s :
  while (Datatypes.S fuel) cond body s =
  match cond s with
  | Ok true => s' <- body s ;; while fuel cond body s'
  | Ok false => Ok s
  | IndexError => IndexError
  | OutOfFuel => OutOfFuel
  end.
Proof. reflexivity. Qed.

Lemma while_exit fuel s : cond s = Ok false -> while fuel cond body s = Ok s.
Proof. intros H. destruct fuel; simpl; rewrite H; reflexivity. Qed.

(** A result obtained with some bound is obtained with every larger one. *)
Lemma while_fuel_mono fuel :
  forall fuel' s r,
    while fuel cond body s = Ok r -> fuel <= fuel' ->
    while fuel' cond body s = Ok r.
Proof.
  induction fuel as [|fuel IH]; intros fuel' s r H Hle.
  - simpl in H. destruct (cond s) as [[|]| |] eqn:E; try discriminate.
    rewrite while_exit; assumption.
  - destruct fuel' as [|fuel']; [lia|].
    rewrite while_unfold in *.
    destruct (cond s) as [[|]| |]; try discriminate; [|assumption].
    destruct (body s) as [s'| |]; try discriminate. simpl in *.
    apply IH; [assumption|lia].
Qed.

(** Partial correctness: an invariant of the body holds at the exit, where
    the condition is false. *)
Lemma while_invariant (Inv : S -> Prop) :
  (forall s s', Inv s -> cond s = Ok true -> body s = Ok s' -> Inv s') ->
  forall fuel s r,
    Inv s -> while fuel cond body s = Ok r -> Inv r /\ cond r = Ok false.
Proof.
  intros Hstep. induction fuel as [|fuel IH]; intros s r Hs H.
  - simpl in H. destruct (cond s) as [[|]| |] eqn:E; try discriminate.
    injection H as <-. auto.
  - rewrite while_unfold in H.
    destruct (cond s) as [[|]| |] eqn:E; try discriminate.
    + destruct (body s) as [s'| |] eqn:Eb; try discriminate. simpl in H.
      apply (IH s'); [eapply Hstep; eassumption|exact H].
    + injection H as <-. auto.
Qed.

(** Total correctness: when the condition never fails, and the body never
    fails and decreases a measure, a bound of at least the measure is
    enough for the loop to exit. *)
Lemma while_total (Inv : S -> Prop) (measure : S -> nat) :
  (forall s, Inv s -> exists b, cond s = Ok b) ->
  (forall s, Inv s -> cond s = Ok true ->
             exists s', body s = Ok s' /\ Inv s' /\ measure s' < measure s) ->
  forall fuel s,
    Inv s -> measure s <= fuel ->
    exists r, while fuel cond body s = Ok r /\ Inv r /\ cond r = Ok false.
Proof.
  intros Hc Hb. induction fuel as [|fuel IH]; intros s Hs Hm.
  - destruct (Hc s Hs) as [[|] E].
    + destruct (Hb s Hs E) as (s' & _ & _ & Hlt). lia.
    + exists s. simpl. rewrite E. auto.
  - destruct (Hc s Hs) as [[|] E].
    + destruct (Hb s Hs E) as (s' & Es' & Hs' & Hlt).
      destruct (IH s' Hs') as (r & Hr); [lia|].
      exists r. rewrite while_unfold, E, Es'. exact Hr.
    + exists s. rewrite while_exit by assumption. auto.
Qed.

End While.

(** ** Facts about strings *)

Lemma get_lt s : forall i, i < String.length s -> exists c, get i s = Some c.
Proof.
  induction s as [|a s IH]; intros i H; simpl in H; [lia|].
  destruct i as [|i]; simpl; [eauto|]. apply IH. lia.
Qed.

Lemma getitem_lt s i : i < String.length s -> exists c, Py.getitem s i = Ok c.
Proof.
  intros H. unfold Py.getitem. destruct (get_lt s i H) as [c ->]. eauto.
Qed.

Lemma getitem_list_lt {A} (l : list A) i :
  i < List.length l -> exists x, Py.getitem_list l i = Ok x.
Proof.
  intros H. unfold Py.getitem_list.
  destruct (nth_error l i) eqn:E; [eauto|].
  apply nth_error_None in E. lia.
Qed.

(** [find] returns a position at or after [start]. *)
Lemma index_ge sub s : forall n m, index n sub s = Some m -> n <= m.
Proof.
  induction s as [|a s IH]; intros n m H.
  - destruct n; simpl in H; [|discriminate].
    destruct sub; [injection H as <-; lia|discriminate].
  - destruct n as [|n]; [lia|]. simpl in H.
    destruct (index n sub s) eqn:E; [|discriminate].
    injection H as <-. apply IH in E. lia.
Qed.

Lemma find_ge s sub start j : Py.find s sub start = Some j -> start <= j.
Proof. apply index_ge. Qed.

(** [split] and [join] are inverse: joining the fields of [s] with the
    separator gives [s] back, and there is always a field. *)
Lemma split_nonempty s sep : Py.split s sep <> [].
Proof.
  induction s as [|c s IH]; simpl; [discriminate|].
  destruct (Ascii.eqb c sep); [discriminate|].
  destruct (Py.split s sep); [congruence|discriminate].
Qed.

Lemma join_split s sep : Py.join (String sep "") (Py.split s sep) = s.
Proof.
  unfold Py.join. induction s as [|c s IH]; [reflexivity|].
  cbn [Py.split]. destruct (Ascii.eqb_spec c sep) as [->|N].
  - destruct (Py.split s sep) as [|f fs] eqn:E;
      [destruct (split_nonempty _ _ E)|].
    rewrite <- IH. reflexivity.
  - destruct (Py.split s sep) as [|f fs] eqn:E;
      [destruct (split_nonempty _ _ E)|].
    destruct fs as [|g fs]; cbn [String.concat] in *; rewrite <- IH;
      reflexivity.
Qed.

(** ** Totality of the inline scan *)

Lemma italic_here_total text i :
  i < String.length text -> exists b, italic_here text i = Ok b.
Proof.
  intros H. unfold italic_here.
  destruct (getitem_lt text i H) as [c ->]. simpl.
  destruct (Ascii.eqb c "*"); [|eauto].
  destruct (i =? 0); [eauto|].
  destruct (getitem_lt text (i - 1)) as [p ->]; [lia|]. simpl. eauto.
Qed.

Lemma link_at_gt text i j k : link_at text i = Some (j, k) -> i <= j /\ j < k.
Proof.
  unfold link_at. intros H.
  destruct (Py.find text "]" i) as [j'|] eqn:Ej; [|discriminate].
  destruct (Py.slice text (j' + 1) (j' + 2) =? "(")%string; [|discriminate].
  destruct (Py.find text ")" (j' + 1)) as [k'|] eqn:Ek; [|discriminate].
  injection H as <- <-. apply find_ge in Ej, Ek. lia.
Qed.

(** Inside the text, an iteration of the scan returns and moves forward. *)
Lemma scan_body_progress text i current result :
  i < String.length text ->
  exists i' current' result',
    scan_body text (i, current, result) = Ok (i', current', result') /\ i < i'.
Proof.
  intros H. unfold scan_body.
  destruct (Py.slice text i (i + 2) =? "**")%string.
  { destruct (Py.find text "**" (i + 2)) as [j|] eqn:Ej.
    - apply find_ge in Ej. do 3 eexists. split; [reflexivity|lia].
    - do 3 eexists. split; [reflexivity|lia]. }
  destruct (italic_here_total text i H) as [it ->]. simpl.
  destruct it.
  { destruct (Py.find text "*" (i + 1)) as [j|] eqn:Ej.
    - apply find_ge in Ej. do 3 eexists. split; [reflexivity|lia].
    - do 3 eexists. split; [reflexivity|lia]. }
  destruct (getitem_lt text i H) as [c Ec].
  destruct (Py.slice text i (i + 1) =? "[")%string.
  - destruct (link_at text i) as [[j k]|] eqn:El.
    + apply link_at_gt in El. do 3 eexists. split; [reflexivity|lia].
    + rewrite Ec. simpl. do 3 eexists. split; [reflexivity|lia].
  - rewrite Ec. simpl. do 3 eexists. split; [reflexivity|lia].
Qed.

Lemma scan_loop_total text :
  exists i current result,
    while (String.length text) (scan_cond text) (scan_body text) (0, "", [])
    = Ok (i, current, result).
Proof.
  destruct (while_total (scan_cond text) (scan_body text)
              (fun _ => True) (fun st => String.length text - fst (fst st)))
    with (fuel := String.length text) (s := (0, "", @nil rich_text))
    as ([[i current] result] & Hr & _); simpl; auto; try lia.
  - intros [[i c] r] _. simpl. eauto.
  - intros [[i c] r] _ Hc. simpl in Hc. injection Hc as Hc.
    apply Nat.ltb_lt in Hc.
    destruct (scan_body_progress text i c r Hc) as (i' & c' & r' & E & Hlt).
    exists (i', c', r'). simpl. split; [assumption|]. split; [trivial|lia].
  - eauto.
Qed.

Lemma scan_spans_total text : exists result, scan_spans text = Ok result.
Proof.
  unfold scan_spans. destruct (scan_loop_total text) as (i & c & r & ->).
  simpl. eauto.
Qed.

Lemma parse_rich_text_total text : exists s, _parse_rich_text text = Ok s.
Proof.
  unfold _parse_rich_text. destruct (scan_spans_total text) as [r ->]. simpl.
  destruct r as [|s r]; [exists (text_span ""); reflexivity|].
  exists s. reflexivity.
Qed.

(** ** The steps of the inline scan *)

Lemma scan_body_step text st st' :
  scan_body text st = Ok st' -> scan_step text st st'.
Proof.
  destruct st as [[i current] result]. unfold scan_body.
  destruct (Py.slice text i (i + 2) =? "**")%string.
  { intros H. injection H as <-. apply step_bold. unfold closing.
    destruct (Py.find text "**" (i + 2)); auto. }
  destruct (italic_here text i) as [[|]| |]; cbn [bind]; try discriminate.
  { intros H. injection H as <-. apply step_italic. unfold closing.
    destruct (Py.find text "*" (i + 1)); auto. }
  destruct (Py.slice text i (i + 1) =? "[")%string.
  - destruct (link_at text i) as [[j k]|] eqn:El.
    + intros H. injection H as <-. apply step_link.
      unfold link_at in El. destruct (Py.find text "]" i); [|discriminate].
      destruct (_ =? _)%string; [|discriminate].
      destruct (Py.find text ")" _); [|discriminate].
      injection El as -> _. reflexivity.
    + destruct (Py.getitem text i); cbn [bind]; try discriminate.
      intros H. injection H as <-. apply step_bracket.
  - destruct (Py.getitem text i); cbn [bind]; try discriminate.
    intros H. injection H as <-. apply step_char.
Qed.

(** The scan returns, past the end of the text, in a state where every
    property kept by its steps holds. *)
Lemma scan_loop_invariant text (Inv : scan_state -> Prop) :
  Inv (0, "", []) ->
  (forall st st', Inv st -> scan_step text st st' -> Inv st') ->
  exists i current result,
    while (String.length text) (scan_cond text) (scan_body text) (0, "", [])
    = Ok (i, current, result) /\
    Inv (i, current, result) /\ String.length text <= i.
Proof.
  intros H0 Hstep. destruct (scan_loop_total text) as (i & c & r & E).
  exists i, c, r. split; [exact E|].
  apply while_invariant with (Inv := Inv) in E; auto.
  - destruct E as [HI Hc]. split; [exact HI|].
    unfold scan_cond in Hc. injection Hc as Hc. apply Nat.ltb_ge, Hc.
  - intros st st' HI _ Hb. eapply Hstep; [exact HI|].
    apply scan_body_step, Hb.
Qed.

(** *** Substrings *)

Lemma substring_empty n m : substring n m "" = "".
Proof. destruct n, m; reflexivity. Qed.

Lemma length_substring s :
  forall n m, String.length (substring n m s) = Nat.min m (String.length s - n).
Proof.
  induction s as [|a s IH]; intros n m.
  - rewrite substring_empty. simpl. lia.
  - destruct n as [|n]; simpl.
    + destruct m as [|m]; simpl; [reflexivity|].
      rewrite IH. rewrite Nat.sub_0_r. reflexivity.
    + apply IH.
Qed.

Lemma substring_substring s :
  forall n l p m,
    p + m <= l -> substring p m (substring n l s) = substring (n + p) m s.
Proof.
  induction s as [|a s IH]; intros n l p m H.
  - rewrite !substring_empty. reflexivity.
  - destruct n as [|n]; simpl.
    + destruct l as [|l].
      * assert (p = 0) by lia. assert (m = 0) by lia. subst. reflexivity.
      * destruct p as [|p].
        -- destruct m as [|m]; [reflexivity|]. simpl. f_equal.
           apply (IH 0 l 0 m). lia.
        -- simpl. apply (IH 0 l p m). lia.
    + apply IH. exact H.
Qed.

(** A slice in which [sub] occurs nowhere does not contain [sub]. *)
Lemma slice_free s sub a b :
  sub <> "" ->
  (forall p, a <= p -> p + String.length sub <= b ->
             substring p (String.length sub) s <> sub) ->
  Py.contains sub (Py.slice s a b) = false.
Proof.
  intros Hsub Hno. unfold Py.contains, Py.find, Py.slice.
  destruct (index 0 sub (substring a (b - a) s)) as [q|] eqn:E; [|reflexivity].
  exfalso. apply index_correct1 in E.
  assert (Hpos : 0 < String.length sub)
    by (destruct sub; [congruence|simpl; lia]).
  assert (Hlen : q + String.length sub <= b - a).
  { assert (Hl := f_equal String.length E).
    rewrite !length_substring in Hl. lia. }
  rewrite substring_substring in E by exact Hlen.
  apply (Hno (a + q)); [lia|lia|exact E].
Qed.

(** The text between a position at or after [start] and the closing marker
    found from [start] does not contain the marker. *)
Lemma closing_slice_free text sub start a j :
  sub <> "" -> closing text sub start j -> start <= a ->
  Py.contains sub (Py.slice text a j) = false.
Proof.
  intros Hsub [Hj|[Hj ->]] Ha; apply slice_free; auto; intros p Hp Hpj.
  - apply (index_correct2 _ _ _ _ Hj); [lia|].
    destruct sub; [congruence|]. simpl in Hpj. lia.
  - apply (index_correct3 _ p _ _ Hj); [exact Hsub|lia].
Qed.

(** ** Totality of the segmenter *)

Lemma fence_cond_true lines i code_lines :
  fence_cond lines (i, code_lines) = Ok true -> i < List.length lines.
Proof.
  unfold fence_cond. destruct (i <? List.length lines) eqn:E.
  - intros _. apply Nat.ltb_lt. exact E.
  - discriminate.
Qed.

Lemma fence_cond_total lines st : exists b, fence_cond lines st = Ok b.
Proof.
  destruct st as [i code_lines]. unfold fence_cond.
  destruct (i <? List.length lines) eqn:E; [|eauto].
  apply Nat.ltb_lt in E. destruct (getitem_list_lt lines i E) as [l ->].
  simpl. eauto.
Qed.

(** The inner loop of the code-block rule returns, at or after its start. *)
Lemma fence_loop_total lines i0 :
  exists i code_lines,
    while (List.length lines) (fence_cond lines) (fence_body lines) (i0, [])
    = Ok (i, code_lines) /\ i0 <= i.
Proof.
  destruct (while_total (fence_cond lines) (fence_body lines)
              (fun st => i0 <= fst st) (fun st => List.length lines - fst st))
    with (fuel := List.length lines) (s := (i0, @nil string))
    as ([i code_lines] & Hr & Hi & _); simpl; auto; try lia.
  - intros st _. apply fence_cond_total.
  - intros [i cl] Hi Hc. simpl in Hi. apply fence_cond_true in Hc.
    unfold fence_body. destruct (getitem_list_lt lines i Hc) as [l ->].
    simpl. eexists. split; [reflexivity|]. simpl. lia.
  - eauto.
Qed.

(** An iteration of the segmenter inside the document returns, moves the
    cursor forward, by one line unless the line starts with the fence, and
    appends at most one block, which does not depend on the blocks already
    there. *)
Lemma seg_body_spec lines i line :
  nth_error lines i = Some line ->
  exists i' new,
    i < i' /\ List.length new <= 1 /\ Forall one_span new /\
    (Py.startswith line fence = false -> i' = i + 1) /\
    forall blocks, seg_body lines (i, blocks) = Ok (i', blocks ++ new).
Proof.
  intros Hl. unfold seg_body, _heading_block, Py.getitem_list.
  rewrite Hl. cbn [bind].
  assert (Hone : forall b, one_span b ->
            exists i' new,
              i < i' /\ List.length new <= 1 /\ Forall one_span new /\
              (Py.startswith line fence = false -> i' = i + 1) /\
              forall blocks : list block,
                Ok (i + 1, blocks ++ [b]) = Ok (i', blocks ++ new)).
  { intros b Hb. exists (i + 1), [b]. repeat split; auto; simpl; lia. }
  destruct (negb (Py.truthy (Py.strip line))).
  { exists (i + 1), []. repeat split; auto; try (simpl; lia).
    intros blocks. rewrite app_nil_r. reflexivity. }
  destruct (Py.startswith line "# ").
  { destruct (parse_rich_text_total (Py.slice_from line 2)) as [s ->].
    cbn [bind]. apply Hone. reflexivity. }
  destruct (Py.startswith line "## ").
  { destruct (parse_rich_text_total (Py.slice_from line 3)) as [s ->].
    cbn [bind]. apply Hone. reflexivity. }
  destruct (Py.startswith line "### ").
  { destruct (parse_rich_text_total (Py.slice_from line 4)) as [s ->].
    cbn [bind]. apply Hone. reflexivity. }
  destruct (Py.mem (Py.strip line) ["---"; "***"; "___"]).
  { apply Hone. exact I. }
  destruct (Py.startswith line "> ").
  { apply Hone. reflexivity. }
  destruct (Py.startswith line fence).
  { destruct (fence_loop_total lines (i + 1)) as (j & cl & -> & Hj).
    cbn [bind]. eexists (j + 1), [_].
    repeat split; auto; try (simpl; lia); try discriminate.
    repeat constructor. }
  destruct (Py.startswith (Py.strip line) "- " || Py.startswith (Py.strip line) "* ").
  { destruct (parse_rich_text_total (Py.slice_from (Py.strip line) 2)) as [s ->].
    cbn [bind]. apply Hone. reflexivity. }
  destruct (Py.re_match_numbered line).
  { destruct (parse_rich_text_total (Py.re_sub_numbered line)) as [s ->].
    cbn [bind]. apply Hone. reflexivity. }
  destruct (Py.contains "|" line && negb (Py.startswith (Py.strip line) "|")).
  { match goal with |- context [_parse_rich_text ?t] =>
      destruct (parse_rich_text_total t) as [s ->] end.
    cbn [bind]. apply Hone. reflexivity. }
  destruct (parse_rich_text_total line) as [s ->].
  cbn [bind]. apply Hone. reflexivity.
Qed.

Lemma seg_cond_true lines i blocks :
  seg_cond lines (i, blocks) = Ok true -> i < List.length lines.
Proof. unfold seg_cond. intros H. injection H as H. apply Nat.ltb_lt, H. Qed.

Lemma seg_cond_lt lines i blocks :
  i < List.length lines -> seg_cond lines (i, blocks) = Ok true.
Proof. intros H. unfold seg_cond. f_equal. apply Nat.ltb_lt, H. Qed.

Lemma seg_cond_ge lines i blocks :
  List.length lines <= i -> seg_cond lines (i, blocks) = Ok false.
Proof. intros H. unfold seg_cond. f_equal. apply Nat.ltb_ge, H. Qed.

Lemma nth_error_lt {A} (l : list A) i :
  i < List.length l -> exists x, nth_error l i = Some x.
Proof.
  intros H. destruct (nth_error l i) eqn:E; [eauto|].
  apply nth_error_None in E. lia.
Qed.

(** From any cursor, the loop of the segmenter returns; it only appends to
    [blocks], blocks that carry one span each and do not depend on the
    blocks already there. *)
Lemma seg_loop_total lines :
  forall fuel i,
    List.length lines - i <= fuel ->
    exists i' new,
      Forall one_span new /\
      forall blocks,
        while fuel (seg_cond lines) (seg_body lines) (i, blocks)
        = Ok (i', blocks ++ new).
Proof.
  induction fuel as [|fuel IH]; intros i Hf.
  - exists i, []. split; [constructor|]. intros blocks. rewrite app_nil_r.
    apply while_exit, seg_cond_ge. lia.
  - destruct (Nat.ltb_spec i (List.length lines)) as [Hi|Hi].
    + destruct (nth_error_lt lines i Hi) as [line Hl].
      destruct (seg_body_spec lines i line Hl)
        as (i1 & new1 & Hlt & _ & Hn1 & _ & E).
      destruct (IH i1) as (i' & new & Hn & Hw); [lia|].
      exists i', (new1 ++ new). split; [apply Forall_app; auto|].
      intros blocks. rewrite while_unfold, seg_cond_lt by exact Hi.
      rewrite E. cbn [bind]. rewrite Hw, app_assoc. reflexivity.
    + exists i, []. split; [constructor|]. intros blocks. rewrite app_nil_r.
      apply while_exit, seg_cond_ge. lia.
Qed.

Lemma blocks_from_total lines i :
  exists blocks, blocks_from lines i = Ok blocks /\ Forall one_span blocks.
Proof.
  unfold blocks_from.
  destruct (seg_loop_total lines (List.length lines) i) as (i' & new & Hn & E);
    [lia|].
  rewrite E. cbn [bind]. eauto.
Qed.

Lemma all_blocks_total content :
  exists blocks, all_blocks content = Ok blocks /\ Forall one_span blocks.
Proof. apply (blocks_from_total (Py.split content Py.LF) 0). Qed.

(** ** The claims *)

(** C1. For every input string, [markdown_to_blocks] returns: it raises no
    exception and does not run out of its loop bounds, and the list of blocks
    it returns has at most 100 elements.  The empty string, a string of
    white space and a string with unmatched markers are instances. *)
Theorem markdown_to_blocks_total :
  forall content : string,
    exists blocks,
      markdown_to_blocks content = Ok blocks /\ List.length blocks <= 100.
Proof.
  intros content. unfold markdown_to_blocks.
  destruct (all_blocks_total content) as (blocks & -> & _). cbn [bind].
  exists (Py.slice_to blocks 100). split; [reflexivity|].
  unfold Py.slice_to. rewrite length_firstn. lia.
Qed.


(** ** The spans of the inline scan *)

Lemma flush_nonempty current result :
  current <> "" \/ result <> [] -> flush current result <> [].
Proof.
  unfold flush. destruct current as [|c current]; simpl.
  - intros [H|H]; [congruence|exact H].
  - intros _. destruct result; discriminate.
Qed.

Lemma flush_Forall (P : rich_text -> Prop) current result :
  P (text_span current) -> Forall P result -> Forall P (flush current result).
Proof.
  intros Hc Hr. unfold flush. destruct (Py.truthy current); [|exact Hr].
  apply Forall_app. auto.
Qed.

Lemma text_span_delimiter_free c : delimiter_free (text_span c).
Proof. repeat split; simpl; intros; congruence. Qed.

Lemma scan_step_nonempty text st st' :
  scan_step text st st' ->
  fst (fst st') <> 0 /\ (snd (fst st') <> "" \/ snd st' <> []).
Proof.
  intros H. destruct H; simpl; (split; [lia|]);
    try (right; intros E; apply app_eq_nil in E; destruct E; discriminate).
  - left. discriminate.
  - left. destruct current; discriminate.
Qed.

Lemma scan_step_delimiter_free text st st' :
  scan_step text st st' ->
  Forall delimiter_free (snd st) -> Forall delimiter_free (snd st').
Proof.
  intros H. destruct H; simpl; intros Hr;
    try (apply Forall_app; split;
         [apply flush_Forall; [apply text_span_delimiter_free|exact Hr]|
          constructor; [|constructor]]).
  - repeat split; simpl; try congruence. intros _.
    apply closing_slice_free with (start := i + 2); [discriminate|auto|lia].
  - repeat split; simpl; try congruence. intros _.
    apply closing_slice_free with (start := i + 1); [discriminate|auto|lia].
  - repeat split; simpl; try congruence. intros _.
    apply closing_slice_free with (start := i); [discriminate|left; auto|lia].
  - apply flush_Forall; [apply text_span_delimiter_free|exact Hr].
  - exact Hr.
Qed.

(** The list of the scan: it exists, its spans are free of their closing
    markers, and it is empty only for the empty text. *)
Lemma scan_spans_spec text :
  exists result,
    scan_spans text = Ok result /\
    Forall delimiter_free result /\
    (text <> "" -> result <> []).
Proof.
  destruct (scan_loop_invariant text
              (fun st => Forall delimiter_free (snd st) /\
                         (fst (fst st) <> 0 ->
                          snd (fst st) <> "" \/ snd st <> [])))
    as (i & c & r & E & [Hd Hn] & Hi).
  - simpl. split; [constructor|congruence].
  - intros st st' [Hd _] Hs. split.
    + eapply scan_step_delimiter_free; eauto.
    + intros _. eapply scan_step_nonempty; eauto.
  - exists (flush c r). unfold scan_spans. rewrite E. cbn [bind].
    split; [reflexivity|]. split.
    + apply flush_Forall; [apply text_span_delimiter_free|exact Hd].
    + intros Ht. apply flush_nonempty. apply Hn. simpl.
      destruct text; [congruence|]. simpl in Hi. lia.
Qed.

Lemma parse_rich_text_hd text result :
  scan_spans text = Ok result ->
  _parse_rich_text text = Ok (hd (text_span "") result).
Proof.
  intros E. unfold _parse_rich_text. rewrite E. cbn [bind].
  destruct result; reflexivity.
Qed.

(** C4. The span [_parse_rich_text] returns is the first span of the list
    its scan built, the others are dropped; when the scan built none, which is
    so for the empty text only, it is a plain span of empty content.  On
    ["**bold** text"] the scan builds a bold span ["bold"] and a plain span
    [" text"], and the bold span alone is returned and put in the block. *)
Theorem parse_rich_text_first_span :
  (forall text : string,
     exists result,
       scan_spans text = Ok result /\
       _parse_rich_text text = Ok (hd (text_span "") result) /\
       (text <> "" -> exists s rest, result = s :: rest)) /\
  scan_spans "**bold** text" = Ok [bold_span "bold"; text_span " text"] /\
  _parse_rich_text "**bold** text" = Ok (bold_span "bold") /\
  markdown_to_blocks "**bold** text" = Ok [paragraph [bold_span "bold"]].
Proof.
  split; [|repeat split; reflexivity].
  intros text. destruct (scan_spans_spec text) as (result & E & _ & Hn).
  exists result. split; [exact E|]. split; [apply parse_rich_text_hd, E|].
  intros Ht. destruct result as [|s rest]; [destruct (Hn Ht); reflexivity|].
  eauto.
Qed.

(** C5, as the code has it.  On the empty string the scan builds no span and
    [_parse_rich_text] returns one plain span of empty content; on every
    other text the scan builds at least one span and [_parse_rich_text]
    returns the first.  So one span is returned for every input. *)
Theorem parse_rich_text_one_span :
  forall text : string,
    exists result s,
      scan_spans text = Ok result /\
      returned_spans text = Ok [s] /\
      (text = "" -> result = [] /\ s = text_span "") /\
      (text <> "" -> exists rest, result = s :: rest).
Proof.
  intros text. destruct (scan_spans_spec text) as (result & E & _ & Hn).
  exists result, (hd (text_span "") result).
  split; [exact E|]. split; [|split].
  - unfold returned_spans. rewrite (parse_rich_text_hd _ _ E). reflexivity.
  - intros ->. vm_compute in E. injection E as <-. split; reflexivity.
  - intros Ht. destruct result as [|s rest]; [destruct (Hn Ht); reflexivity|].
    exists rest. reflexivity.
Qed.

(** C5 at a concrete text: the text ["a"] is not empty, the scan builds the
    plain span ["a"] and it is the span returned. *)
Lemma parse_rich_text_one_span_witness :
  exists result s,
    scan_spans "a" = Ok result /\ returned_spans "a" = Ok [s] /\
    exists rest, result = s :: rest.
Proof.
  destruct (parse_rich_text_one_span "a") as (result & s & E & R & _ & Hn).
  exists result, s. split; [exact E|]. split; [exact R|].
  apply Hn. discriminate.
Defined.

(** C5, as the claim states it, fails: for the empty string the span list
    handed to the caller is not empty, it holds one span of empty content. *)
Lemma parse_rich_text_empty_not_zero_spans :
  returned_spans "" = Ok [text_span ""] /\ returned_spans "" <> Ok [].
Proof. split; [reflexivity|discriminate]. Qed.

(** C6, as the code has it.  In every span the scan builds, and so in the
    span returned, the content of a bold span contains no ["**"], the content
    of an italic span contains no ["*"], and the text of a link contains no
    ["]"]. *)
Theorem spans_delimiter_free :
  forall text : string,
    exists result s,
      scan_spans text = Ok result /\ Forall delimiter_free result /\
      _parse_rich_text text = Ok s /\ delimiter_free s.
Proof.
  intros text. destruct (scan_spans_spec text) as (result & E & Hd & _).
  exists result, (hd (text_span "") result).
  split; [exact E|]. split; [exact Hd|].
  split; [apply parse_rich_text_hd, E|].
  destruct Hd; [apply text_span_delimiter_free|assumption].
Qed.

(** C6, as the claim states it, fails: the text of a link can contain ["["],
    ["("] and [")"]. *)
Lemma link_content_contains_bracket :
  _parse_rich_text "[a[b](u)" = Ok (link_span "a[b" "u") /\
  Py.contains "[" "a[b" = true /\
  _parse_rich_text "[(x)](u)" = Ok (link_span "(x)" "u") /\
  Py.contains "(" "(x)" = true /\ Py.contains ")" "(x)" = true.
Proof. repeat split; reflexivity. Qed.

(** C10. Every block [markdown_to_blocks] returns, a divider apart, carries
    a rich-text list of exactly one span (a code block too).  The span is
    there when the text after the marker is empty: ["# "] gives a heading
    whose one span has empty content, the span [_parse_rich_text] returns for
    the empty text. *)
Theorem blocks_one_span :
  (forall content : string,
     exists blocks,
       markdown_to_blocks content = Ok blocks /\ Forall one_span blocks) /\
  _parse_rich_text "" = Ok (text_span "") /\
  markdown_to_blocks "# " = Ok [heading heading_1 [text_span ""]].
Proof.
  split; [|split; reflexivity].
  intros content. unfold markdown_to_blocks.
  destruct (all_blocks_total content) as (blocks & -> & H). cbn [bind].
  exists (Py.slice_to blocks 100). split; [reflexivity|].
  unfold Py.slice_to. rewrite <- (firstn_skipn 100 blocks) in H.
  apply Forall_app in H. apply H.
Qed.

(** ** The rules of the dispatch *)

Lemma prefix_cons a p b s :
  prefix (String a p) (String b s) = Ascii.eqb a b && prefix p s.
Proof.
  simpl. destruct (ascii_dec a b) as [->|N].
  - rewrite Ascii.eqb_refl. reflexivity.
  - apply Ascii.eqb_neq in N. rewrite N. reflexivity.
Qed.

Lemma startswith_head line c p :
  Py.startswith line (String c p) = true ->
  exists s, line = String c s /\ Py.startswith s p = true.
Proof.
  unfold Py.startswith. destruct line as [|a s]; [discriminate|].
  rewrite prefix_cons. intros H. apply andb_prop in H as [Ha Hp].
  apply Ascii.eqb_eq in Ha. subst. eauto.
Qed.

Lemma startswith_head_neq c s a p :
  a <> c -> Py.startswith (String c s) (String a p) = false.
Proof.
  intros N. unfold Py.startswith. rewrite prefix_cons.
  apply Ascii.eqb_neq in N. rewrite N. reflexivity.
Qed.

Lemma strip_head c s :
  Py.isspace c = false -> exists r, Py.strip (String c s) = String c r.
Proof.
  intros H. unfold Py.strip. cbn [Py.lstrip]. rewrite H. cbn [Py.rstrip].
  destruct (Py.rstrip s); [rewrite H|]; eauto.
Qed.

(** A line whose first character is neither white space nor one of [#], [-],
    [*] and [_] is not taken by a rule before the quote rule. *)
Lemma before_quote_head c s :
  Py.isspace c = false ->
  c <> "#"%char -> c <> "-"%char -> c <> "*"%char -> c <> "_"%char ->
  before_quote (String c s) = false.
Proof.
  intros Hs N1 N2 N3 N4. unfold before_quote.
  destruct (strip_head c s Hs) as [r ->].
  rewrite !startswith_head_neq by congruence.
  unfold Py.mem. cbn [existsb String.eqb Py.truthy negb orb].
  apply Ascii.eqb_neq in N2, N3, N4. rewrite N2, N3, N4. reflexivity.
Qed.

Lemma seg_body_after_quote lines i blocks line :
  nth_error lines i = Some line ->
  before_quote line = false ->
  seg_body lines (i, blocks) =
  if Py.startswith line "> " then
    Ok (i + 1, blocks ++ [quote [text_span (Py.slice_from line 2)]])
  else if Py.startswith line fence then
    let lang := if 3 <? String.length line
                then Py.strip (Py.slice_from line 3) else "" in
    '(i, code_lines) <-
       while (List.length lines) (fence_cond lines) (fence_body lines) (i + 1, []) ;;
    Ok (i + 1,
        blocks ++ [code (if Py.truthy lang then lang else "plain text")
                        [text_span (Py.join Py.nl code_lines)]])
  else if Py.startswith (Py.strip line) "- " || Py.startswith (Py.strip line) "* " then
    s <- _parse_rich_text (Py.slice_from (Py.strip line) 2) ;;
    Ok (i + 1, blocks ++ [bulleted_list_item [s]])
  else if Py.re_match_numbered line then
    s <- _parse_rich_text (Py.re_sub_numbered line) ;;
    Ok (i + 1, blocks ++ [numbered_list_item [s]])
  else if Py.contains "|" line && negb (Py.startswith (Py.strip line) "|") then
    s <- _parse_rich_text
           (Py.join " | " (map Py.strip (Py.slice_1_m1 (Py.split line "|")))) ;;
    Ok (i + 1, blocks ++ [paragraph [s]])
  else
    s <- _parse_rich_text line ;;
    Ok (i + 1, blocks ++ [paragraph [s]]).
Proof.
  intros Hl Hb. unfold seg_body, Py.getitem_list. rewrite Hl. cbn [bind].
  unfold before_quote in Hb.
  repeat (apply orb_false_elim in Hb as [Hb ?]).
  repeat match goal with H : _ = false |- _ => rewrite H; clear H end.
  reflexivity.
Qed.

(** The quote rule. *)
Lemma seg_body_quote lines i blocks line :
  nth_error lines i = Some line ->
  Py.startswith line "> " = true ->
  seg_body lines (i, blocks) =
  Ok (i + 1, blocks ++ [quote [text_span (Py.slice_from line 2)]]).
Proof.
  intros Hl Hq. rewrite (seg_body_after_quote _ _ _ _ Hl).
  - rewrite Hq. reflexivity.
  - apply startswith_head in Hq as (s & -> & _).
    apply before_quote_head; [reflexivity|discriminate..].
Qed.

(** The heading rules. *)
Lemma seg_body_heading_1 lines i blocks line :
  nth_error lines i = Some line ->
  Py.startswith line "# " = true ->
  exists s,
    _parse_rich_text (Py.slice_from line 2) = Ok s /\
    seg_body lines (i, blocks) = Ok (i + 1, blocks ++ [heading heading_1 [s]]).
Proof.
  intros Hl Hh. destruct (parse_rich_text_total (Py.slice_from line 2)) as [s E].
  exists s. split; [exact E|].
  unfold seg_body, Py.getitem_list, _heading_block. rewrite Hl. cbn [bind].
  rewrite Hh. apply startswith_head in Hh as (r & -> & _).
  destruct (strip_head "#" r eq_refl) as [t ->]. cbn [Py.truthy negb].
  rewrite E. reflexivity.
Qed.

(** *** The code-block rule *)

Lemma skipn_nth_error {A} (l : list A) :
  forall i x, nth_error l i = Some x -> skipn i l = x :: skipn (S i) l.
Proof.
  induction l as [|a l IH]; intros [|i] x H; try discriminate.
  - injection H as ->. reflexivity.
  - simpl in H. apply IH in H. exact H.
Qed.

Lemma skipn_nth_error_None {A} (l : list A) i :
  nth_error l i = None -> skipn i l = [].
Proof. intros H. apply skipn_all2. apply nth_error_None. exact H. Qed.

Lemma code_lines_of_length ls : List.length (code_lines_of ls) <= List.length ls.
Proof.
  induction ls as [|l ls IH]; simpl; [lia|].
  destruct (Py.startswith l fence); simpl; lia.
Qed.

(** [code_lines_of ls] is a prefix of [ls], none of its lines starts with
    the fence, and what follows it in [ls] is nothing or starts with a line
    that starts with the fence. *)
Lemma code_lines_of_spec ls :
  exists rest,
    ls = code_lines_of ls ++ rest /\
    Forall (fun l => Py.startswith l fence = false) (code_lines_of ls) /\
    (rest = [] \/
     exists close rest', rest = close :: rest' /\ Py.startswith close fence = true).
Proof.
  induction ls as [|l ls (rest & E & Hf & Hr)]; simpl.
  - exists []. repeat split; auto.
  - destruct (Py.startswith l fence) eqn:El.
    + exists (l :: ls). repeat split; auto. right. eauto.
    + exists rest. simpl. split; [congruence|]. split; auto.
Qed.

(** The inner loop takes the lines of the code block and stops on the line
    after them. *)
Lemma fence_loop_spec lines :
  forall fuel i acc,
    List.length (code_lines_of (skipn i lines)) <= fuel ->
    while fuel (fence_cond lines) (fence_body lines) (i, acc)
    = Ok (i + List.length (code_lines_of (skipn i lines)),
          acc ++ code_lines_of (skipn i lines)).
Proof.
  assert (Hstop : forall fuel i acc,
            fence_cond lines (i, acc) = Ok false ->
            code_lines_of (skipn i lines) = [] ->
            while fuel (fence_cond lines) (fence_body lines) (i, acc)
            = Ok (i + List.length (code_lines_of (skipn i lines)),
                  acc ++ code_lines_of (skipn i lines))).
  { intros fuel i acc Hc ->. rewrite while_exit by exact Hc.
    cbn [List.length]. rewrite Nat.add_0_r, app_nil_r. reflexivity. }
  induction fuel as [|fuel IH]; intros i acc Hf;
    (destruct (nth_error lines i) as [l|] eqn:El;
     [|apply Hstop;
       [unfold fence_cond;
        replace (i <? List.length lines) with false; [reflexivity|];
        symmetry; apply Nat.ltb_ge, nth_error_None; exact El
       |rewrite (skipn_nth_error_None _ _ El); reflexivity]]);
    assert (Hi : (i <? List.length lines) = true)
      by (apply Nat.ltb_lt, nth_error_Some; congruence);
    assert (Hc : fence_cond lines (i, acc) = Ok (negb (Py.startswith l fence)))
      by (unfold fence_cond, Py.getitem_list; rewrite Hi, El; reflexivity);
    (destruct (Py.startswith l fence) eqn:Es;
     [apply Hstop;
      [exact Hc
      |rewrite (skipn_nth_error _ _ _ El); cbn [code_lines_of];
       rewrite Es; reflexivity]|]);
    rewrite (skipn_nth_error _ _ _ El) in *; cbn [code_lines_of] in *;
    rewrite Es in *.
  - cbn [List.length] in Hf. lia.
  - rewrite while_unfold, Hc. cbn [negb].
    unfold fence_body, Py.getitem_list. rewrite El. cbn [bind].
    replace (i + 1) with (S i) by lia. rewrite IH.
    + cbn [List.length]. rewrite <- app_assoc. cbn [app].
      f_equal. f_equal. lia.
    + cbn [List.length] in Hf. lia.
Qed.

Lemma fence_lang line :
  Py.startswith line fence = true ->
  (if 3 <? String.length line then Py.strip (Py.slice_from line 3) else "")
  = Py.strip (Py.slice_from line 3).
Proof.
  intros H. destruct (3 <? String.length line) eqn:E; [reflexivity|].
  apply Nat.ltb_ge in E.
  apply startswith_head in H as (s1 & -> & H).
  apply startswith_head in H as (s2 & -> & H).
  apply startswith_head in H as (s3 & -> & _).
  destruct s3; [reflexivity|]. simpl in E. lia.
Qed.

(** The code-block rule: on a line that starts with the fence, the
    iteration appends one code block and leaves the cursor two lines after
    the last line of the block, that is, just after the closing fence. *)
Lemma seg_body_fence lines i blocks line :
  nth_error lines i = Some line ->
  Py.startswith line fence = true ->
  seg_body lines (i, blocks) =
  let body := code_lines_of (skipn (i + 1) lines) in
  Ok (i + 1 + List.length body + 1,
      blocks ++ [code (fence_language line)
                      [text_span (Py.join Py.nl body)]]).
Proof.
  intros Hl Hf. rewrite (seg_body_after_quote _ _ _ _ Hl).
  - replace (Py.startswith line "> ") with false.
    + rewrite Hf, (fence_lang _ Hf). rewrite fence_loop_spec.
      * reflexivity.
      * etransitivity; [apply code_lines_of_length|].
        rewrite length_skipn. lia.
    + apply startswith_head in Hf as (s & -> & _).
      symmetry. apply startswith_head_neq. discriminate.
  - apply startswith_head in Hf as (s & -> & _).
    apply before_quote_head; [reflexivity|discriminate..].
Qed.

(** ** The cursor of the segmenter *)

(** One iteration, then the blocks from the new cursor on. *)
Lemma blocks_from_unfold lines i i1 new1 :
  i < List.length lines ->
  (forall blocks, seg_body lines (i, blocks) = Ok (i1, blocks ++ new1)) ->
  exists rest,
    blocks_from lines i1 = Ok rest /\
    blocks_from lines i = Ok (new1 ++ rest).
Proof.
  intros Hi Hb.
  destruct (nth_error_lt lines i Hi) as [line Hl].
  destruct (seg_body_spec lines i line Hl) as (i' & new & Hlt & _ & _ & _ & E).
  assert (Hi1 : i' = i1) by (specialize (Hb []); rewrite E in Hb; congruence).
  subst i'. unfold blocks_from.
  destruct (List.length lines) as [|fuel] eqn:Hlen; [lia|].
  destruct (seg_loop_total lines fuel i1) as (j & rest & _ & Hw); [lia|].
  exists rest. split.
  - rewrite (while_fuel_mono _ _ fuel (S fuel) (i1, []) (j, [] ++ rest));
      [reflexivity|apply Hw|lia].
  - rewrite while_unfold, seg_cond_lt by lia. rewrite Hb. cbn [bind].
    rewrite Hw. reflexivity.
Qed.

(** The blocks the loop has when it comes to a cursor are the first of the
    blocks of the document, and those from the cursor on are the others. *)
Lemma reached_blocks lines i before :
  reached lines i before ->
  exists after,
    blocks_from lines i = Ok after /\
    blocks_from lines 0 = Ok (before ++ after).
Proof.
  induction 1 as [|i blocks i' blocks' _ (after & Ei & E0) Hi Hb].
  - destruct (blocks_from_total lines 0) as (after & E & _). eauto.
  - destruct (nth_error_lt lines i Hi) as [line Hl].
    destruct (seg_body_spec lines i line Hl) as (i1 & new & _ & _ & _ & _ & E).
    rewrite E in Hb. injection Hb as <- <-.
    destruct (blocks_from_unfold lines i i1 new Hi E) as (rest & Er & Ei').
    rewrite Ei in Ei'. injection Ei' as ->.
    exists rest. split; [exact Er|]. rewrite E0, app_assoc. reflexivity.
Qed.

(** A block appended at a cursor the loop comes to is a block of the
    document: it follows the blocks the loop had, and the blocks after it
    are those from the new cursor on. *)
Lemma emitted content i before i' b :
  let lines := Py.split content Py.LF in
  reached lines i before ->
  i < List.length lines ->
  (forall blocks, seg_body lines (i, blocks) = Ok (i', blocks ++ [b])) ->
  exists after,
    blocks_from lines i' = Ok after /\
    all_blocks content = Ok (before ++ b :: after) /\
    markdown_to_blocks content = Ok (firstn 100 (before ++ b :: after)).
Proof.
  intros lines Hr Hi Hb.
  destruct (reached_blocks lines i before Hr) as (after & Ei & E0).
  destruct (blocks_from_unfold lines i i' [b] Hi Hb) as (rest & Er & Ei').
  rewrite Ei in Ei'. injection Ei' as ->.
  exists rest. split; [exact Er|].
  assert (Ea : all_blocks content = Ok (before ++ b :: rest)) by exact E0.
  split; [exact Ea|]. unfold markdown_to_blocks. rewrite Ea. reflexivity.
Qed.

(** The loop comes to every line that no line starting with the fence
    precedes. *)
Lemma reached_no_fence lines :
  forall i,
    i <= List.length lines ->
    Forall (fun l => Py.startswith l fence = false) (firstn i lines) ->
    exists before, reached lines i before.
Proof.
  induction i as [|i IH]; intros Hi Hf.
  - exists []. constructor.
  - destruct (nth_error_lt lines i) as [line Hl]; [lia|].
    assert (Hfi : firstn (S i) lines = firstn i lines ++ [line]).
    { rewrite <- (firstn_skipn i lines) at 1.
      rewrite (skipn_nth_error _ _ _ Hl).
      rewrite firstn_app, firstn_firstn, length_firstn.
      replace (Nat.min (S i) i) with i by lia.
      replace (S i - Nat.min i (List.length lines)) with 1 by lia.
      reflexivity. }
    rewrite Hfi in Hf. apply Forall_app in Hf as [Hf Hline].
    inversion Hline as [|? ? Hnf _]; subst.
    destruct IH as [before Hr]; [lia|exact Hf|].
    destruct (seg_body_spec lines i line Hl) as (i1 & new & _ & _ & _ & H1 & E).
    exists (before ++ new). apply reached_step with (i := i) (blocks := before).
    + exact Hr.
    + lia.
    + rewrite E, (H1 Hnf). f_equal. f_equal. lia.
Qed.

(** *** The list rules *)

Lemma startswith_strip_head line c p :
  Py.startswith line (String c p) = true -> Py.isspace c = false ->
  exists r, Py.strip line = String c r.
Proof.
  intros H Hc. apply startswith_head in H as (s & -> & _).
  apply strip_head, Hc.
Qed.

(** A line whose trimmed form starts with ["- "] or ["* "] is taken by no
    rule before the list rules. *)
Lemma bullet_not_before line :
  Py.startswith (Py.strip line) "- " || Py.startswith (Py.strip line) "* " = true ->
  before_quote line = false /\
  Py.startswith line "> " = false /\ Py.startswith line fence = false.
Proof.
  intros H.
  assert (Hp : forall c p,
            Py.isspace c = false -> c <> "-"%char -> c <> "*"%char ->
            Py.startswith line (String c p) = false).
  { intros c p Hc N1 N2. destruct (Py.startswith line (String c p)) eqn:E; auto.
    destruct (startswith_strip_head _ _ _ E Hc) as [r Hr]. rewrite Hr in H.
    rewrite !startswith_head_neq in H by congruence. discriminate. }
  unfold before_quote. unfold fence.
  rewrite !Hp by (reflexivity || discriminate).
  repeat split.
  apply orb_true_iff in H as [H|H];
    apply startswith_head in H as (r1 & -> & H);
    apply startswith_head in H as (r2 & -> & _); reflexivity.
Qed.

(** The bulleted-list rule. *)
Lemma seg_body_bullet lines i blocks line :
  nth_error lines i = Some line ->
  Py.startswith (Py.strip line) "- " || Py.startswith (Py.strip line) "* " = true ->
  exists s,
    _parse_rich_text (Py.slice_from (Py.strip line) 2) = Ok s /\
    seg_body lines (i, blocks) = Ok (i + 1, blocks ++ [bulleted_list_item [s]]).
Proof.
  intros Hl Hb. destruct (bullet_not_before line Hb) as (H1 & H2 & H3).
  destruct (parse_rich_text_total (Py.slice_from (Py.strip line) 2)) as [s E].
  exists s. split; [exact E|].
  rewrite (seg_body_after_quote _ _ _ _ Hl H1), H2, H3, Hb, E. reflexivity.
Qed.

Lemma isdigit_not_isspace c : Py.isdigit c = true -> Py.isspace c = false.
Proof.
  destruct c as [[|] [|] [|] [|] [|] [|] [|] [|]];
    intros H; try reflexivity; discriminate H.
Qed.

Lemma isdigit_neq c x : Py.isdigit c = true -> Py.isdigit x = false -> c <> x.
Proof. intros Hc Hx ->. congruence. Qed.

Lemma re_match_numbered_head line :
  Py.re_match_numbered line = true ->
  exists c s, line = String c s /\ Py.isdigit c = true.
Proof.
  unfold Py.re_match_numbered, Py.re_numbered.
  destruct line as [|c s]; [discriminate|].
  destruct (Py.isdigit c) eqn:E; [eauto|discriminate].
Qed.

(** A line that matches [^\d+\. ] is taken by no rule before the
    numbered-list rule. *)
Lemma numbered_not_before line :
  Py.re_match_numbered line = true ->
  before_quote line = false /\
  Py.startswith line "> " = false /\ Py.startswith line fence = false /\
  Py.startswith (Py.strip line) "- " || Py.startswith (Py.strip line) "* " = false.
Proof.
  intros H. apply re_match_numbered_head in H as (c & s & -> & Hc).
  assert (Hs := isdigit_not_isspace c Hc).
  assert (N : forall x, Py.isdigit x = false -> x <> c).
  { intros x Hx E. symmetry in E. revert E. apply isdigit_neq; assumption. }
  split; [|split; [|split]].
  - apply before_quote_head; auto; apply not_eq_sym, N; reflexivity.
  - apply startswith_head_neq, N. reflexivity.
  - apply startswith_head_neq, N. reflexivity.
  - destruct (strip_head c s Hs) as [r ->].
    rewrite !startswith_head_neq by (apply N; reflexivity). reflexivity.
Qed.

(** The numbered-list rule. *)
Lemma seg_body_numbered lines i blocks line :
  nth_error lines i = Some line ->
  Py.re_match_numbered line = true ->
  exists s,
    _parse_rich_text (Py.re_sub_numbered line) = Ok s /\
    seg_body lines (i, blocks) = Ok (i + 1, blocks ++ [numbered_list_item [s]]).
Proof.
  intros Hl Hn. destruct (numbered_not_before line Hn) as (H1 & H2 & H3 & H4).
  destruct (parse_rich_text_total (Py.re_sub_numbered line)) as [s E].
  exists s. split; [exact E|].
  rewrite (seg_body_after_quote _ _ _ _ Hl H1), H2, H3, H4, Hn, E. reflexivity.
Qed.

(** *** The table rule and the paragraph *)

Lemma seg_body_after_numbered lines i blocks line :
  nth_error lines i = Some line ->
  before_table line = false ->
  seg_body lines (i, blocks) =
  if Py.contains "|" line && negb (Py.startswith (Py.strip line) "|") then
    s <- _parse_rich_text (table_text line) ;;
    Ok (i + 1, blocks ++ [paragraph [s]])
  else
    s <- _parse_rich_text line ;;
    Ok (i + 1, blocks ++ [paragraph [s]]).
Proof.
  intros Hl Hb. unfold before_table in Hb.
  do 4 (apply orb_false_elim in Hb as [Hb ?]).
  rewrite (seg_body_after_quote _ _ _ _ Hl Hb).
  repeat match goal with
         | H : _ = false |- _ => rewrite H; clear H
         end.
  reflexivity.
Qed.

(** The table rule. *)
Lemma seg_body_table lines i blocks line :
  nth_error lines i = Some line ->
  before_table line = false ->
  Py.contains "|" line = true ->
  Py.startswith (Py.strip line) "|" = false ->
  exists s,
    _parse_rich_text (table_text line) = Ok s /\
    seg_body lines (i, blocks) = Ok (i + 1, blocks ++ [paragraph [s]]).
Proof.
  intros Hl Hb Hc Hp. destruct (parse_rich_text_total (table_text line)) as [s E].
  exists s. split; [exact E|].
  rewrite (seg_body_after_numbered _ _ _ _ Hl Hb), Hc, Hp, E. reflexivity.
Qed.

(** The paragraph, for a line no rule takes. *)
Lemma seg_body_paragraph lines i blocks line :
  nth_error lines i = Some line ->
  before_table line = false ->
  Py.contains "|" line && negb (Py.startswith (Py.strip line) "|") = false ->
  exists s,
    _parse_rich_text line = Ok s /\
    seg_body lines (i, blocks) = Ok (i + 1, blocks ++ [paragraph [s]]).
Proof.
  intros Hl Hb Hc. destruct (parse_rich_text_total line) as [s E].
  exists s. split; [exact E|].
  rewrite (seg_body_after_numbered _ _ _ _ Hl Hb), Hc, E. reflexivity.
Qed.

Lemma seg_body_heading_2 lines i blocks line :
  nth_error lines i = Some line ->
  Py.startswith line "## " = true ->
  exists s,
    _parse_rich_text (Py.slice_from line 3) = Ok s /\
    seg_body lines (i, blocks) = Ok (i + 1, blocks ++ [heading heading_2 [s]]).
Proof.
  intros Hl Hh. destruct (parse_rich_text_total (Py.slice_from line 3)) as [s E].
  exists s. split; [exact E|].
  unfold seg_body, Py.getitem_list, _heading_block. rewrite Hl. cbn [bind].
  rewrite Hh. apply startswith_head in Hh as (r & -> & Hh).
  apply startswith_head in Hh as (r' & -> & _).
  destruct (strip_head "#" (String "#" r') eq_refl) as [t ->].
  cbn [Py.truthy negb]. rewrite E. reflexivity.
Qed.

Lemma seg_body_heading_3 lines i blocks line :
  nth_error lines i = Some line ->
  Py.startswith line "### " = true ->
  exists s,
    _parse_rich_text (Py.slice_from line 4) = Ok s /\
    seg_body lines (i, blocks) = Ok (i + 1, blocks ++ [heading heading_3 [s]]).
Proof.
  intros Hl Hh. destruct (parse_rich_text_total (Py.slice_from line 4)) as [s E].
  exists s. split; [exact E|].
  unfold seg_body, Py.getitem_list, _heading_block. rewrite Hl. cbn [bind].
  rewrite Hh. apply startswith_head in Hh as (r & -> & Hh).
  apply startswith_head in Hh as (r' & -> & Hh).
  apply startswith_head in Hh as (r'' & -> & _).
  destruct (strip_head "#" (String "#" (String "#" r'')) eq_refl) as [t ->].
  cbn [Py.truthy negb]. rewrite E. reflexivity.
Qed.

(** *** The regular expression [^\d+\. ] *)

Lemma substring_0_length s : substring 0 (String.length s) s = s.
Proof. induction s as [|a s IH]; simpl; [reflexivity|f_equal; exact IH]. Qed.

Lemma slice_from_app p r :
  Py.slice_from (p ++ r)%string (String.length p) = r.
Proof.
  unfold Py.slice_from. induction p as [|a p IH]; simpl.
  - rewrite Nat.sub_0_r. apply substring_0_length.
  - exact IH.
Qed.

Lemma startswith_app s p :
  Py.startswith s p = true ->
  s = (p ++ Py.slice_from s (String.length p))%string.
Proof.
  unfold Py.startswith, Py.slice_from. revert s.
  induction p as [|a p IH]; intros s H.
  - simpl. rewrite Nat.sub_0_r, substring_0_length. reflexivity.
  - destruct s as [|b s]; [discriminate|]. rewrite prefix_cons in H.
    apply andb_prop in H as [Ha Hp]. apply Ascii.eqb_eq in Ha. subst b.
    simpl. f_equal. apply IH, Hp.
Qed.

Lemma skip_digits_split s :
  exists ds, all_digits ds = true /\ s = (ds ++ Py.skip_digits s)%string.
Proof.
  induction s as [|c s (ds & Hd & E)]; simpl.
  - exists "". split; reflexivity.
  - destruct (Py.isdigit c) eqn:Ec.
    + exists (String c ds). simpl. rewrite Ec, Hd. split; [reflexivity|].
      f_equal. exact E.
    + exists "". split; reflexivity.
Qed.

Lemma skip_digits_app ds c r :
  all_digits ds = true -> Py.isdigit c = false ->
  Py.skip_digits (ds ++ String c r) = String c r.
Proof.
  intros Hd Hc. induction ds as [|d ds IH]; simpl.
  - rewrite Hc. reflexivity.
  - simpl in Hd. apply andb_prop in Hd as [Hd1 Hd2]. rewrite Hd1. auto.
Qed.

(** [re_numbered] is the match of [^\d+\. ]: the line is one or more
    digits, a period, a space, and the rest, which is what [re_numbered]
    gives. *)
Lemma re_numbered_spec line rest :
  Py.re_numbered line = Some rest <->
  exists ds,
    ds <> "" /\ all_digits ds = true /\ line = (ds ++ ". " ++ rest)%string.
Proof.
  unfold Py.re_numbered. split.
  - destruct line as [|c s]; [discriminate|].
    destruct (Py.isdigit c) eqn:Ec; [|discriminate].
    destruct (Py.startswith (Py.skip_digits s) ". ") eqn:Ep; [|discriminate].
    intros H. injection H as <-.
    destruct (skip_digits_split s) as (ds & Hd & E).
    exists (String c ds). split; [discriminate|]. split.
    + simpl. rewrite Ec, Hd. reflexivity.
    + simpl. f_equal. rewrite E at 1. f_equal.
      apply (startswith_app _ _ Ep).
  - intros (ds & Hne & Hd & ->). destruct ds as [|c ds]; [congruence|].
    simpl in Hd. apply andb_prop in Hd as [Hc Hd]. simpl. rewrite Hc.
    rewrite (skip_digits_app ds "." (String " " rest) Hd eq_refl).
    assert (Hp : Py.startswith (String "." (String " " rest)) ". " = true)
      by (unfold Py.startswith; rewrite !prefix_cons; destruct rest;
          reflexivity).
    rewrite Hp. f_equal. apply (slice_from_app ". " rest).
Qed.

(** ** Lines and blocks of a document *)

Lemma at_line_emits content i before line i' b :
  at_line content i before line ->
  (forall blocks,
     seg_body (Py.split content Py.LF) (i, blocks) = Ok (i', blocks ++ [b])) ->
  emits content before b i'.
Proof.
  intros [Hr Hl] Hb. apply (emitted content i before i' b Hr); [|exact Hb].
  apply nth_error_Some. congruence.
Qed.

(** In a list with an element for which [p] holds, there is a first one. *)
Lemma Exists_first {A} (p : A -> bool) (l : list A) :
  Exists (fun x => p x = true) l ->
  exists i x,
    nth_error l i = Some x /\ p x = true /\
    Forall (fun y => p y = false) (firstn i l).
Proof.
  induction l as [|a l IH]; intros H; [inversion H|].
  destruct (p a) eqn:Ea.
  - exists 0, a. repeat split; auto.
  - inversion H as [? ? Hp|? ? Hl]; subst; [congruence|].
    destruct (IH Hl) as (i & x & Hn & Hx & Hf).
    exists (S i), x. repeat split; auto. simpl. constructor; auto.
Qed.

(** C8. When the loop comes to a line that starts with the fence, the
    segmenter appends one code block.  Its language is the trimmed rest of
    the fence line, or ["plain text"] when that is empty.  Its content is the
    lines that follow, as they are, joined with line feeds, up to the next
    line that starts with the fence, or up to the end of the input when there
    is no such line.  The scan goes on at the line after that closing line.
    In a document with a line that starts with the fence the loop comes to
    the first such line.  The two examples of the specification are
    instances. *)
Theorem code_fence_block :
  (forall content i before line,
     at_line content i before line ->
     Py.startswith line fence = true ->
     let lines := Py.split content Py.LF in
     let body := code_lines_of (skipn (i + 1) lines) in
     let close := i + 1 + List.length body in
     emits content before
       (code (fence_language line) [text_span (Py.join Py.nl body)])
       (close + 1) /\
     body = firstn (List.length body) (skipn (i + 1) lines) /\
     Forall (fun l => Py.startswith l fence = false) body /\
     (nth_error lines close = None \/
      exists l, nth_error lines close = Some l /\
                Py.startswith l fence = true)) /\
  (forall content,
     Exists (fun l => Py.startswith l fence = true) (Py.split content Py.LF) ->
     exists i before line,
       at_line content i before line /\ Py.startswith line fence = true) /\
  markdown_to_blocks
    ("```python" ++ Py.nl ++ "print(1)" ++ Py.nl ++ "print(2)" ++ Py.nl ++
     "```" ++ Py.nl ++ "after")%string
  = Ok [code "python" [text_span ("print(1)" ++ Py.nl ++ "print(2)")%string];
        paragraph [text_span "after"]] /\
  markdown_to_blocks ("```" ++ Py.nl ++ "line1" ++ Py.nl ++ "line2")%string
  = Ok [code "plain text" [text_span ("line1" ++ Py.nl ++ "line2")%string]].
Proof.
  split; [|split; [|split; reflexivity]].
  - intros content i before line Hat Hf lines body close.
    destruct (code_lines_of_spec (skipn (i + 1) lines))
      as (rest & E & Hnf & Hrest).
    fold body in E, Hnf. split; [|split; [|split]].
    + apply (at_line_emits content i before line); [exact Hat|].
      intros blocks. destruct Hat as [_ Hl].
      rewrite (seg_body_fence _ _ _ _ Hl Hf). reflexivity.
    + rewrite E. rewrite firstn_app, Nat.sub_diag, firstn_all.
      simpl. rewrite app_nil_r. reflexivity.
    + exact Hnf.
    + unfold close. rewrite <- nth_error_skipn, E.
      rewrite nth_error_app2, Nat.sub_diag by lia.
      destruct Hrest as [->|(l & rest' & -> & Hl)]; [left|right; exists l];
        auto.
  - intros content Hex.
    destruct (Exists_first _ _ Hex) as (i & line & Hl & Hf & Hno).
    destruct (reached_no_fence (Py.split content Py.LF) i) as [before Hr].
    + apply Nat.lt_le_incl, nth_error_Some. congruence.
    + exact Hno.
    + exists i, before, line. repeat split; assumption.
Qed.

(** C8 at a document: the fence line is the second line, after a
    paragraph, and the scan goes on after the closing fence. *)
Lemma code_fence_block_witness :
  emits ("intro" ++ Py.nl ++ "``` py " ++ Py.nl ++ " x = 1" ++ Py.nl ++
         "```" ++ Py.nl ++ "after")%string
    [paragraph [text_span "intro"]]
    (code "py" [text_span " x = 1"]) 4.
Proof.
  refine (proj1 (proj1 code_fence_block _ 1 _ "``` py " _ _)).
  - split.
    + eapply reached_step; [apply reached_start|simpl; lia|reflexivity].
    + reflexivity.
  - reflexivity.
Defined.

(** The same for a block whose span [_parse_rich_text] returns. *)
Lemma at_line_emits_span content i before line text (b : rich_text -> block) :
  at_line content i before line ->
  (forall blocks,
     exists s, _parse_rich_text text = Ok s /\
       seg_body (Py.split content Py.LF) (i, blocks)
       = Ok (i + 1, blocks ++ [b s])) ->
  exists s, _parse_rich_text text = Ok s /\
            emits content before (b s) (i + 1).
Proof.
  intros Hat H. destruct (H []) as (s & Es & _). exists s.
  split; [exact Es|]. apply (at_line_emits content i before line); [exact Hat|].
  intros blocks. destruct (H blocks) as (s' & Es' & E).
  rewrite Es in Es'. injection Es' as <-. exact E.
Qed.

(** C9. When the loop comes to a line that starts with ["> "], the
    segmenter appends a quote block whose one span is plain and holds the
    rest of the line as it is: [_parse_rich_text] is not applied, and the
    markers of bold, italic and links stay in the content.  For a heading, a
    list item and a paragraph the span is the one [_parse_rich_text] returns
    for the text. *)
Theorem quote_is_raw :
  forall content i before line,
    at_line content i before line ->
    (Py.startswith line "> " = true ->
     emits content before (quote [text_span (Py.slice_from line 2)]) (i + 1)) /\
    (Py.startswith line "# " = true ->
     exists s, _parse_rich_text (Py.slice_from line 2) = Ok s /\
               emits content before (heading heading_1 [s]) (i + 1)) /\
    (Py.startswith line "## " = true ->
     exists s, _parse_rich_text (Py.slice_from line 3) = Ok s /\
               emits content before (heading heading_2 [s]) (i + 1)) /\
    (Py.startswith line "### " = true ->
     exists s, _parse_rich_text (Py.slice_from line 4) = Ok s /\
               emits content before (heading heading_3 [s]) (i + 1)) /\
    (Py.startswith (Py.strip line) "- " || Py.startswith (Py.strip line) "* "
     = true ->
     exists s, _parse_rich_text (Py.slice_from (Py.strip line) 2) = Ok s /\
               emits content before (bulleted_list_item [s]) (i + 1)) /\
    (Py.re_match_numbered line = true ->
     exists s, _parse_rich_text (Py.re_sub_numbered line) = Ok s /\
               emits content before (numbered_list_item [s]) (i + 1)) /\
    (before_table line = false ->
     Py.contains "|" line && negb (Py.startswith (Py.strip line) "|") = false ->
     exists s, _parse_rich_text line = Ok s /\
               emits content before (paragraph [s]) (i + 1)).
Proof.
  intros content i before line Hat.
  assert (Hl := proj2 Hat).
  assert (Hgo := fun text b =>
            at_line_emits_span content i before line text b Hat).
  repeat split.
  - intros H. apply (at_line_emits content i before line); [exact Hat|].
    intros blocks. apply seg_body_quote; assumption.
  - intros H. apply (Hgo _ (fun s => heading heading_1 [s])).
    intros blocks. apply (seg_body_heading_1 _ _ _ _ Hl H).
  - intros H. apply (Hgo _ (fun s => heading heading_2 [s])).
    intros blocks. apply (seg_body_heading_2 _ _ _ _ Hl H).
  - intros H. apply (Hgo _ (fun s => heading heading_3 [s])).
    intros blocks. apply (seg_body_heading_3 _ _ _ _ Hl H).
  - intros H. apply (Hgo _ (fun s => bulleted_list_item [s])).
    intros blocks. apply (seg_body_bullet _ _ _ _ Hl H).
  - intros H. apply (Hgo _ (fun s => numbered_list_item [s])).
    intros blocks. apply (seg_body_numbered _ _ _ _ Hl H).
  - intros H1 H2. apply (Hgo _ (fun s => paragraph [s])).
    intros blocks. apply (seg_body_paragraph _ _ _ _ Hl H1 H2).
Qed.

(** C9 at a document: the markers stay in the quote of the second line, and
    the same text as a paragraph gives its first span, the bold one. *)
Lemma quote_is_raw_witness :
  emits ("**b** x" ++ Py.nl ++ "> **b** x")%string
    [paragraph [bold_span "b"]] (quote [text_span "**b** x"]) 2 /\
  exists s, _parse_rich_text "**b** x" = Ok s /\
            emits "**b** x" [] (paragraph [s]) 1.
Proof.
  split.
  - refine (proj1 (quote_is_raw _ 1 _ "> **b** x" _) _); [split|].
    + eapply reached_step; [apply reached_start|simpl; lia|reflexivity].
    + reflexivity.
    + reflexivity.
  - refine (proj2 (proj2 (proj2 (proj2 (proj2 (proj2
              (quote_is_raw "**b** x" 0 [] "**b** x" _)))))) _ _).
    + split; [apply reached_start|reflexivity].
    + reflexivity.
    + reflexivity.
Defined.

(** The numbered-list rule on a line without white space before the
    digits.  When the loop comes to a line that itself matches [^\d+\. ]
    (one or more digits at the very start of the line, a period, a space),
    the segmenter appends a numbered list item whose span is the one
    [_parse_rich_text] returns for the rest of the line, after the digits, the
    period and the space.  ["3. third"] gives a numbered list item of content
    ["third"]. *)
Theorem numbered_item :
  (forall content i before line ds rest,
     at_line content i before line ->
     ds <> "" -> all_digits ds = true ->
     line = (ds ++ ". " ++ rest)%string ->
     exists s, _parse_rich_text rest = Ok s /\
               emits content before (numbered_list_item [s]) (i + 1)) /\
  markdown_to_blocks "3. third" = Ok [numbered_list_item [text_span "third"]].
Proof.
  split; [|reflexivity].
  intros content i before line ds rest Hat Hne Hd E.
  assert (Hre : Py.re_numbered line = Some rest).
  { apply re_numbered_spec. exists ds. auto. }
  assert (Hm : Py.re_match_numbered line = true)
    by (unfold Py.re_match_numbered; rewrite Hre; reflexivity).
  assert (Hs : Py.re_sub_numbered line = rest)
    by (unfold Py.re_sub_numbered; rewrite Hre; reflexivity).
  rewrite <- Hs.
  apply (at_line_emits_span content i before line _
           (fun s => numbered_list_item [s]) Hat).
  intros blocks. apply seg_body_numbered; [apply Hat|exact Hm].
Qed.

(** The numbered-list rule at a document: the second line is
    ["12. **x** y"]. *)
Lemma numbered_item_witness :
  exists s, _parse_rich_text "**x** y" = Ok s /\
            emits ("intro" ++ Py.nl ++ "12. **x** y")%string
              [paragraph [text_span "intro"]] (numbered_list_item [s]) 2.
Proof.
  refine (proj1 numbered_item _ 1 _ "12. **x** y" "12" "**x** y" _ _ _ _).
  - split.
    + eapply reached_step; [apply reached_start|simpl; lia|reflexivity].
    + reflexivity.
  - discriminate.
  - reflexivity.
  - reflexivity.
Defined.

(** C7 at the line [" 3. third"].  A line whose trimmed form matches
    [^\d+\. ] is to give a numbered list item with the text after the
    prefix.  The code matches the line as it is, not trimmed: the trimmed form
    of [" 3. third"] matches, the line does not, and the line becomes a
    paragraph with its white space and its number, where ["3. third"] gives
    the item.  The bulleted-list rule next to it does trim: [" - third"]
    gives the item as ["- third"] does. *)
Lemma numbered_item_indented_is_paragraph :
  Py.re_match_numbered (Py.strip " 3. third") = true /\
  Py.re_match_numbered " 3. third" = false /\
  markdown_to_blocks " 3. third" = Ok [paragraph [text_span " 3. third"]] /\
  markdown_to_blocks "3. third" = Ok [numbered_list_item [text_span "third"]] /\
  markdown_to_blocks " - third" = Ok [bulleted_list_item [text_span "third"]] /\
  markdown_to_blocks "- third" = Ok [bulleted_list_item [text_span "third"]].
Proof. repeat split; reflexivity. Qed.

(** C3 at the line ["| a | b | c |"].  A table row is to give a paragraph
    of its fields, trimmed and joined with [" | "]: ["a | b | c"] here.  The
    table rule is guarded by [not line.strip().startswith('|')], so a row
    that starts with ["|"], the row its [[1:-1]] is made for, is not taken by
    it and becomes a paragraph of the whole line, pipes included.  The lines
    the rule does take lose their first and last field, which are text there:
    ["x | a | b | y"] keeps ["a | b"] only and ["a | b"] keeps nothing. *)
Lemma table_row_leading_pipe :
  Py.startswith (Py.strip "| a | b | c |") "|" = true /\
  table_text "| a | b | c |" = "a | b | c" /\
  markdown_to_blocks "| a | b | c |"
  = Ok [paragraph [text_span "| a | b | c |"]] /\
  markdown_to_blocks "x | a | b | y" = Ok [paragraph [text_span "a | b"]] /\
  markdown_to_blocks "a | b" = Ok [paragraph [text_span ""]].
Proof. repeat split; reflexivity. Qed.


(** C4 at a text: of the three spans the scan builds for ["a*b*c"], the
    first is returned. *)
Lemma parse_rich_text_first_span_witness :
  exists result s rest,
    scan_spans "a*b*c" = Ok result /\ result = s :: rest /\
    _parse_rich_text "a*b*c" = Ok s.
Proof.
  destruct (proj1 parse_rich_text_first_span "a*b*c") as (result & E & Ep & Hn).
  destruct Hn as (s & rest & ->); [discriminate|].
  exists (s :: rest), s, rest. repeat split; assumption.
Defined.

(** ** The first span *)

(** *** Characters and substrings *)

Lemma substring_get s :
  forall i m c,
    get i s = Some c ->
    substring i (S m) s = String c (substring (S i) m s).
Proof.
  induction s as [|a s IH]; intros i m c H; [destruct i; discriminate|].
  destruct i as [|i]; simpl in H.
  - injection H as ->. reflexivity.
  - simpl. rewrite (IH i m c H). reflexivity.
Qed.

Lemma substring_0_0 s : substring 0 0 s = "".
Proof. destruct s; reflexivity. Qed.

Lemma substring_S_0 s : forall i, substring i 0 s = "".
Proof.
  induction s as [|a s IH]; intros [|i]; try reflexivity. simpl. apply IH.
Qed.

Lemma substring_snoc s :
  forall i c,
    get i s = Some c ->
    substring 0 (S i) s = (substring 0 i s ++ String c "")%string.
Proof.
  induction s as [|a s IH]; intros i c H; [destruct i; discriminate|].
  destruct i as [|i]; simpl in H.
  - injection H as ->. simpl. rewrite substring_0_0. reflexivity.
  - simpl. f_equal. apply IH, H.
Qed.

Lemma substring_app_l a b :
  forall q m,
    q + m <= String.length a -> substring q m (a ++ b) = substring q m a.
Proof.
  induction a as [|x a IH]; intros q m H.
  - simpl in H. assert (q = 0) by lia. assert (m = 0) by lia. subst.
    simpl. rewrite substring_0_0. reflexivity.
  - destruct q as [|q]; simpl.
    + destruct m as [|m]; [reflexivity|]. f_equal. apply IH. simpl in H. lia.
    + apply IH. simpl in H. lia.
Qed.

Lemma substring_app_r a b :
  forall n m, substring (String.length a + n) m (a ++ b) = substring n m b.
Proof. induction a as [|x a IH]; intros n m; simpl; auto. Qed.

Lemma substring_0_app a b : substring 0 (String.length a) (a ++ b) = a.
Proof.
  rewrite substring_app_l by lia. apply substring_0_length.
Qed.

Lemma get_app_l a b i : i < String.length a -> get i (a ++ b) = get i a.
Proof. intros H. symmetry. apply append_correct1, H. Qed.

Lemma get_app_r a b i : get (String.length a + i) (a ++ b) = get i b.
Proof.
  rewrite Nat.add_comm. symmetry. apply append_correct2.
Qed.

Lemma get_Some_lt s : forall i c, get i s = Some c -> i < String.length s.
Proof.
  induction s as [|a s IH]; intros [|i] c H; try discriminate; simpl.
  - lia.
  - simpl in H. apply IH in H. lia.
Qed.

Lemma plain_text_get p :
  plain_text p = true -> forall i c, get i p = Some c -> plain_char c = true.
Proof.
  induction p as [|a p IH]; intros Hp i c H; [destruct i; discriminate|].
  simpl in Hp. apply andb_prop in Hp as [Ha Hp].
  destruct i as [|i]; simpl in H; [congruence|]. eapply IH; eauto.
Qed.

Lemma plain_char_spec c :
  plain_char c = true <-> c <> "*"%char /\ c <> "["%char.
Proof.
  unfold plain_char. rewrite andb_true_iff, !negb_true_iff, !Ascii.eqb_neq.
  reflexivity.
Qed.

(** [find] gives the first occurrence. *)
Lemma index_first sub s n m :
  sub <> "" -> n <= m ->
  substring m (String.length sub) s = sub ->
  (forall p, n <= p -> p < m -> substring p (String.length sub) s <> sub) ->
  index n sub s = Some m.
Proof.
  intros Hsub Hn Hm Hno. destruct (index n sub s) as [m'|] eqn:E.
  - f_equal. assert (Hge := index_ge _ _ _ _ E).
    destruct (Nat.lt_trichotomy m' m) as [Hlt|[->|Hgt]]; [|reflexivity|].
    + exfalso. apply (Hno m' Hge Hlt). apply (index_correct1 _ _ _ _ E).
    + exfalso. apply (index_correct2 _ _ _ _ E m Hn Hgt). exact Hm.
  - exfalso. apply (index_correct3 _ m _ _ E Hsub Hn). exact Hm.
Qed.

Lemma contains_false sub s :
  sub <> "" -> Py.contains sub s = false ->
  forall p, substring p (String.length sub) s <> sub.
Proof.
  unfold Py.contains, Py.find. intros Hsub H p.
  destruct (index 0 sub s) eqn:E; [discriminate|].
  apply (index_correct3 _ p _ _ E Hsub). lia.
Qed.

(** *** Iterations on a plain character and on a marker *)

Lemma slice_width text i n : Py.slice text i (i + n) = substring i n text.
Proof. unfold Py.slice. f_equal. lia. Qed.

(** On a character that opens no marker the scan adds it to [current]. *)
Lemma scan_body_plain text i current result c :
  get i text = Some c -> plain_char c = true ->
  scan_body text (i, current, result)
  = Ok (i + 1, (current ++ String c "")%string, result).
Proof.
  intros Hg Hc. apply plain_char_spec in Hc as [N1 N2].
  apply Ascii.eqb_neq in N1, N2.
  unfold scan_body, italic_here, Py.getitem.
  rewrite !slice_width, Hg, !(substring_get _ _ _ _ Hg).
  cbn [String.eqb bind]. rewrite N1, N2. reflexivity.
Qed.

(** The spans already built stay at the head of [result]. *)
Lemma scan_step_head text st st' :
  scan_step text st st' ->
  forall s, hd_error (snd st) = Some s -> hd_error (snd st') = Some s.
Proof.
  assert (Hf : forall current (result : list rich_text) s,
            hd_error result = Some s ->
            hd_error (flush current result) = Some s).
  { intros current [|x r] s H; [discriminate|].
    unfold flush. destruct (Py.truthy current); exact H. }
  assert (Ha : forall (result more : list rich_text) s,
            hd_error result = Some s -> hd_error (result ++ more) = Some s).
  { intros [|x r] more s H; [discriminate|exact H]. }
  intros H s Hs. destruct H; simpl in *; auto.
Qed.

(** The span [_parse_rich_text] returns is the head of [result] as soon as
    the loop has one: an invariant that gives a head to [result] after the
    first iterations decides what is returned. *)
Lemma parse_rich_text_head text s (Inv : scan_state -> Prop) :
  Inv (0, "", []) ->
  (forall st st',
     Inv st -> scan_cond text st = Ok true -> scan_body text st = Ok st' ->
     Inv st' \/ hd_error (snd st') = Some s) ->
  (forall i current result,
     Inv (i, current, result) -> String.length text <= i ->
     hd_error (flush current result) = Some s) ->
  _parse_rich_text text = Ok s.
Proof.
  intros H0 Hstep Hexit.
  destruct (scan_loop_total text) as (i & c & r & E).
  assert (Hkeep : forall st st',
            Inv st \/ hd_error (snd st) = Some s ->
            scan_cond text st = Ok true -> scan_body text st = Ok st' ->
            Inv st' \/ hd_error (snd st') = Some s).
  { intros st st' [HJ|HJ] Hc Hb; [apply (Hstep _ _ HJ Hc Hb)|].
    right. apply (scan_step_head text st st'); [apply scan_body_step, Hb|].
    exact HJ. }
  destruct (while_invariant _ _ _ Hkeep _ _ _ (or_introl H0) E) as [HJ Hc].
  unfold scan_cond in Hc. injection Hc as Hc. apply Nat.ltb_ge in Hc.
  assert (Hh : hd_error (flush c r) = Some s).
  { destruct HJ as [HJ|HJ]; [apply (Hexit _ _ _ HJ Hc)|].
    simpl in HJ. destruct r as [|x r]; [discriminate|].
    unfold flush. destruct (Py.truthy c); exact HJ. }
  unfold _parse_rich_text, scan_spans. rewrite E. cbn [bind].
  destruct (flush c r) as [|x l]; [discriminate|].
  injection Hh as ->. reflexivity.
Qed.

Lemma length_append a b :
  String.length (a ++ b) = String.length a + String.length b.
Proof. induction a as [|x a IH]; simpl; [reflexivity|f_equal; exact IH]. Qed.

Lemma append_assoc a b c : ((a ++ b) ++ c)%string = (a ++ b ++ c)%string.
Proof. induction a as [|x a IH]; simpl; [reflexivity|f_equal; exact IH]. Qed.

Lemma append_empty_r a : (a ++ "")%string = a.
Proof. induction a as [|x a IH]; simpl; [reflexivity|f_equal; exact IH]. Qed.

(** On a character that opens a marker, a [*] that no [*] precedes or a
    [[], the scan flushes [current] into [result], whatever it does next. *)
Lemma scan_body_marker text i current result c st' :
  get i text = Some c -> plain_char c = false ->
  (i = 0 \/ exists d, get (i - 1) text = Some d /\ d <> "*"%char) ->
  scan_body text (i, current, result) = Ok st' ->
  exists more, snd st' = flush current result ++ more.
Proof.
  intros Hg Hc Hprev. unfold scan_body.
  destruct (Py.slice text i (i + 2) =? "**")%string.
  { intros H. injection H as <-. simpl. eauto. }
  assert (Hit : italic_here text i = Ok (Ascii.eqb c "*")).
  { unfold italic_here, Py.getitem. rewrite Hg. cbn [bind].
    destruct (Ascii.eqb c "*"); [|reflexivity].
    destruct Hprev as [->|(d & Hd & Nd)]; [reflexivity|].
    destruct (i =? 0); [reflexivity|]. rewrite Hd. cbn [bind].
    apply Ascii.eqb_neq in Nd. rewrite Nd. reflexivity. }
  rewrite Hit. cbn [bind]. destruct (Ascii.eqb c "*") eqn:Es.
  { intros H. injection H as <-. simpl. eauto. }
  assert (Hb : Ascii.eqb c "[" = true).
  { unfold plain_char in Hc. rewrite Es in Hc. simpl in Hc.
    apply negb_false_iff in Hc. exact Hc. }
  rewrite slice_width, (substring_get _ _ _ _ Hg), substring_S_0.
  cbn [String.eqb]. rewrite Hb. cbn [andb].
  destruct (link_at text i) as [[j k]|].
  - intros H. injection H as <-. simpl. eauto.
  - unfold Py.getitem. rewrite Hg. cbn [bind]. intros H. injection H as <-.
    exists []. simpl. rewrite app_nil_r. reflexivity.
Qed.

(** The run of plain characters a text starts with is the first span. *)
Lemma plain_prefix_span :
  forall p rest,
    p <> "" -> plain_text p = true -> marker_or_end rest = true ->
    _parse_rich_text (p ++ rest) = Ok (text_span p).
Proof.
  intros p rest Hne Hp Hrest.
  assert (Hflush : flush p [] = [text_span p]).
  { unfold flush. destruct p; [congruence|reflexivity]. }
  apply parse_rich_text_head
    with (Inv := fun st =>
                   fst (fst st) <= String.length p /\
                   snd (fst st) = substring 0 (fst (fst st)) p /\
                   snd st = []).
  - simpl. rewrite substring_0_0. auto with arith.
  - intros [[i current] result] st' (Hi & Hcur & Hres) Hc Hb.
    simpl in Hi, Hcur, Hres. subst result.
    unfold scan_cond in Hc. injection Hc as Hc. apply Nat.ltb_lt in Hc.
    rewrite length_append in Hc.
    destruct (Nat.eq_dec i (String.length p)) as [->|Hlt].
    + right. destruct rest as [|c r]; [simpl in Hc; lia|].
      simpl in Hrest. apply negb_true_iff in Hrest.
      assert (Hg : get (String.length p) (p ++ String c r) = Some c).
      { rewrite <- (Nat.add_0_r (String.length p)). apply get_app_r. }
      rewrite substring_0_length in Hcur. subst current.
      assert (Hlast : String.length p - 1 < String.length p)
        by (destruct p; [congruence|simpl; lia]).
      destruct (get_lt p _ Hlast) as [d Hd].
      assert (Hprev : String.length p = 0 \/
                      exists d, get (String.length p - 1) (p ++ String c r)
                                = Some d /\ d <> "*"%char).
      { right. exists d. split; [rewrite get_app_l; assumption|].
        apply (plain_text_get _ Hp) in Hd. apply plain_char_spec in Hd.
        apply Hd. }
      destruct (scan_body_marker _ _ _ _ _ _ Hg Hrest Hprev Hb) as [more Hm].
      rewrite Hm, Hflush. reflexivity.
    + left. assert (Hi' : i < String.length p) by lia.
      destruct (get_lt p i Hi') as [c Hg].
      assert (Hgt : get i (p ++ rest) = Some c)
        by (rewrite get_app_l; assumption).
      rewrite (scan_body_plain _ _ _ _ _ Hgt (plain_text_get _ Hp _ _ Hg)) in Hb.
      injection Hb as <-. simpl. split; [lia|]. split; [|reflexivity].
      replace (i + 1) with (S i) by lia.
      rewrite (substring_snoc _ _ _ Hg), Hcur. reflexivity.
  - intros i current result (Hi & Hcur & Hres) Hlen.
    simpl in Hi, Hcur, Hres. rewrite length_append in Hlen.
    assert (i = String.length p) by lia. subst i result.
    rewrite substring_0_length in Hcur. subst current.
    rewrite Hflush. reflexivity.
Qed.

(** The text before the first [*] or [[], when there is some, is the span
    returned: as it is, plain, and without what follows it.  A text without
    [*] and [[] is returned whole, and the empty text as a span of empty
    content. *)
Theorem plain_prefix_returned :
  forall p rest,
    plain_text p = true -> marker_or_end rest = true ->
    p <> "" \/ rest = "" ->
    _parse_rich_text (p ++ rest) = Ok (text_span p).
Proof.
  intros p rest Hp Hrest Hor. destruct p as [|c p].
  - destruct Hor as [H|E]; [congruence|subst rest]. reflexivity.
  - apply plain_prefix_span; [discriminate|exact Hp|exact Hrest].
Qed.

(** The text ["see "] before a link, and a text without any marker. *)
Lemma plain_prefix_returned_witness :
  _parse_rich_text "see [docs](u)" = Ok (text_span "see ") /\
  _parse_rich_text "no markers here" = Ok (text_span "no markers here").
Proof.
  split.
  - apply (plain_prefix_returned "see " "[docs](u)");
      [reflexivity|reflexivity|left; discriminate].
  - apply (plain_prefix_returned "no markers here" "");
      [reflexivity|reflexivity|right; reflexivity].
Defined.

(** When the first iteration builds a span, that span is returned. *)
Lemma first_step_head text i1 c1 s r1 :
  text <> "" ->
  scan_body text (0, "", []) = Ok (i1, c1, s :: r1) ->
  _parse_rich_text text = Ok s.
Proof.
  intros Hne Hb.
  apply parse_rich_text_head with (Inv := fun st => st = (0, "", [])).
  - reflexivity.
  - intros st st' -> _ Hb'. right. rewrite Hb in Hb'. injection Hb' as <-.
    reflexivity.
  - intros i current result H Hlen. injection H as -> _ _.
    destruct text; [congruence|simpl in Hlen; lia].
Qed.

(** The first occurrence of [sub] in [a ++ sub ++ b] from the start is after
    [a], when [sub] does not occur earlier: not in [a] followed by the
    characters of [sub] but the last. *)
Lemma find_after a sub b n :
  sub <> "" -> n <= String.length a ->
  (forall q, n <= q -> q < String.length a ->
             substring q (String.length sub) (a ++ sub ++ b) <> sub) ->
  Py.find (a ++ sub ++ b) sub n = Some (String.length a).
Proof.
  intros Hsub Hn Hno. unfold Py.find. apply index_first; auto.
  rewrite <- (Nat.add_0_r (String.length a)), substring_app_r.
  apply substring_0_app.
Qed.

Lemma find_none_suffix pre t sub :
  sub <> "" -> Py.contains sub t = false ->
  Py.find (pre ++ t) sub (String.length pre) = None.
Proof.
  intros Hsub Hc. unfold Py.find.
  destruct (index (String.length pre) sub (pre ++ t)) as [m|] eqn:E;
    [|reflexivity].
  exfalso. assert (Hge := index_ge _ _ _ _ E). apply index_correct1 in E.
  replace m with (String.length pre + (m - String.length pre)) in E by lia.
  rewrite substring_app_r in E. revert E. apply contains_false; assumption.
Qed.

Lemma slice_head_2 a b X : Py.slice (String a (String b X)) 0 (0 + 2)
                           = String a (String b "").
Proof. unfold Py.slice. simpl. rewrite substring_0_0. reflexivity. Qed.

Lemma slice_head_1 a X : Py.slice (String a X) 0 (0 + 1) = String a "".
Proof. unfold Py.slice. simpl. rewrite substring_0_0. reflexivity. Qed.

(** A bold span at the start of the text.  The text between the opening
    ["**"] and the first ["**"] after it is returned as a bold span, and what
    follows is dropped; with no closing ["**"] the bold span runs to the end
    of the text. *)
Theorem bold_at_start :
  forall t rest,
    (Py.contains "**" (t ++ "*") = false ->
     _parse_rich_text ("**" ++ t ++ "**" ++ rest) = Ok (bold_span t)) /\
    (Py.contains "**" t = false ->
     _parse_rich_text ("**" ++ t) = Ok (bold_span t)).
Proof.
  intros t rest. split; intros Hc.
  - assert (Hj : Py.find ("**" ++ t ++ "**" ++ rest) "**" (0 + 2)
                 = Some (2 + String.length t)).
    { change (0 + 2) with 2. rewrite <- (append_assoc "**" t ("**" ++ rest)).
      apply (find_after ("**" ++ t) "**" rest 2);
        [discriminate|simpl; lia|].
      intros q Hq1 Hq2. simpl in Hq2.
      replace q with (String.length "**" + (q - 2)) by (simpl; lia).
      rewrite append_assoc, substring_app_r.
      change (t ++ "**" ++ rest)%string with (t ++ "*" ++ "*" ++ rest)%string.
      rewrite <- (append_assoc t "*" ("*" ++ rest)).
      rewrite substring_app_l
        by (rewrite length_append; simpl String.length; lia).
      apply (contains_false "**"); [discriminate|exact Hc]. }
    eapply first_step_head; [discriminate|].
    unfold scan_body. rewrite Hj.
    change ("**" ++ t ++ "**" ++ rest)%string
      with (String "*" (String "*" (t ++ "**" ++ rest))) at 1.
    rewrite slice_head_2.
    cbn [String.eqb Ascii.eqb Bool.eqb andb flush Py.truthy app].
    unfold bold_span, Py.slice.
    replace (2 + String.length t - (0 + 2)) with (String.length t) by lia.
    change (0 + 2) with (String.length "**" + 0).
    rewrite substring_app_r, substring_0_app. reflexivity.
  - assert (Hj : Py.find ("**" ++ t) "**" (0 + 2) = None)
      by (apply (find_none_suffix "**" t "**"); [discriminate|exact Hc]).
    eapply first_step_head; [discriminate|].
    unfold scan_body. rewrite Hj.
    change ("**" ++ t)%string with (String "*" (String "*" t)) at 1.
    rewrite slice_head_2.
    cbn [String.eqb Ascii.eqb Bool.eqb andb flush Py.truthy app].
    unfold bold_span, Py.slice.
    replace (String.length ("**" ++ t) - (0 + 2)) with (String.length t)
      by (simpl; lia).
    change (0 + 2) with (String.length "**" + 0).
    rewrite substring_app_r, substring_0_length. reflexivity.
Qed.

(** Two texts with a bold span at the start, closed and not. *)
Lemma bold_at_start_witness :
  _parse_rich_text "**a*b** and more" = Ok (bold_span "a*b") /\
  _parse_rich_text "**never closed" = Ok (bold_span "never closed").
Proof.
  split.
  - apply (proj1 (bold_at_start "a*b" " and more")). reflexivity.
  - apply (proj2 (bold_at_start "never closed" "")). reflexivity.
Defined.

(** *** Occurrences of a character *)

Lemma substring_1_get s q x : substring q 1 s = String x "" -> get q s = Some x.
Proof.
  intros H. assert (Hg := substring_correct1 s q 1 0 Nat.lt_0_1).
  rewrite H in Hg. simpl in Hg. congruence.
Qed.

Lemma contains_char_false x t :
  Py.contains (String x "") t = false -> forall q, get q t <> Some x.
Proof.
  intros Hc q Hg.
  apply (contains_false (String x "") t) with (p := q); [discriminate|exact Hc|].
  simpl. rewrite (substring_get _ _ _ _ Hg), substring_S_0. reflexivity.
Qed.

(** The first occurrence of the character [x] in [a ++ x :: b] from [n] on
    is after [a], when [x] is not in [a] from [n] on. *)
Lemma find_char_after a x b n :
  n <= String.length a ->
  (forall q, n <= q -> q < String.length a -> get q a <> Some x) ->
  Py.find (a ++ String x b) (String x "") n = Some (String.length a).
Proof.
  intros Hn Hno.
  apply (find_after a (String x "") b n); [discriminate|exact Hn|].
  intros q Hq1 Hq2 H. apply substring_1_get in H.
  rewrite get_app_l in H by exact Hq2. exact (Hno q Hq1 Hq2 H).
Qed.

Lemma substring_mid a b c :
  substring (String.length a) (String.length b) (a ++ b ++ c) = b.
Proof.
  rewrite <- (Nat.add_0_r (String.length a)), substring_app_r.
  apply substring_0_app.
Qed.

(** An italic span at the start of the text.  The text between the opening
    [*] and the first [*] after it is returned as an italic span, and what
    follows is dropped; with no closing [*] the italic span runs to the end of
    the text. *)
Theorem italic_at_start :
  forall t rest,
    Py.contains "*" t = false ->
    (t <> "" ->
     _parse_rich_text ("*" ++ t ++ "*" ++ rest) = Ok (italic_span t)) /\
    _parse_rich_text ("*" ++ t) = Ok (italic_span t).
Proof.
  intros t rest Hc.
  assert (Hno := contains_char_false _ _ Hc).
  assert (Hbody : forall X j,
            Py.find ("*" ++ t ++ X) "*" (0 + 1) = j ->
            (t = "" -> X = "") ->
            scan_body ("*" ++ t ++ X) (0, "", [])
            = Ok ((match j with Some j => j | None =>
                     String.length ("*" ++ t ++ X) end) + 1, "",
                  [italic_span
                     (Py.slice ("*" ++ t ++ X) (0 + 1)
                        (match j with Some j => j | None =>
                           String.length ("*" ++ t ++ X) end))])).
  { intros X j Hj HX. unfold scan_body. rewrite Hj.
    assert (Hs : (Py.slice ("*" ++ t ++ X) 0 (0 + 2) =? "**")%string = false).
    { destruct t as [|c t'].
      - rewrite (HX eq_refl). reflexivity.
      - change ("*" ++ String c t' ++ X)%string
          with (String "*" (String c (t' ++ X))).
        rewrite slice_head_2. cbn [String.eqb].
        assert (N : c <> "*"%char) by (intros ->; apply (Hno 0); reflexivity).
        apply Ascii.eqb_neq in N. rewrite N. reflexivity. }
    rewrite Hs. reflexivity. }
  split.
  - intros Hne.
    assert (Hj : Py.find ("*" ++ t ++ "*" ++ rest) "*" (0 + 1)
                 = Some (1 + String.length t)).
    { rewrite <- (append_assoc "*" t ("*" ++ rest)).
      apply (find_char_after ("*" ++ t) "*" rest 1); [simpl; lia|].
      intros q Hq1 Hq2. destruct q as [|q]; [lia|]. simpl. apply Hno. }
    eapply first_step_head; [discriminate|].
    rewrite (Hbody _ _ Hj) by congruence.
    unfold Py.slice. do 3 f_equal. unfold italic_span. f_equal.
    replace (1 + String.length t - (0 + 1)) with (String.length t) by lia.
    apply (substring_mid "*" t ("*" ++ rest)).
  - assert (Hj : Py.find ("*" ++ t ++ "") "*" (0 + 1) = None).
    { rewrite append_empty_r.
      apply (find_none_suffix "*" t "*"); [discriminate|exact Hc]. }
    rewrite <- (append_empty_r t) at 1.
    eapply first_step_head; [discriminate|].
    rewrite (Hbody _ _ Hj) by reflexivity.
    unfold Py.slice. do 3 f_equal. unfold italic_span. f_equal.
    replace (String.length ("*" ++ t ++ "") - (0 + 1)) with (String.length t)
      by (rewrite append_empty_r; simpl; lia).
    apply (substring_mid "*" t "").
Qed.

(** Two texts with an italic span at the start, closed and not. *)
Lemma italic_at_start_witness :
  _parse_rich_text "*so* it goes" = Ok (italic_span "so") /\
  _parse_rich_text "*open" = Ok (italic_span "open").
Proof.
  split.
  - apply (proj1 (italic_at_start "so" " it goes" eq_refl)). discriminate.
  - apply (proj2 (italic_at_start "open" "" eq_refl)).
Defined.

(** A link at the start of the text.  For ["[t](u)"] followed by anything,
    with no ["]"] in [t] and no [")"] in [u], the span returned is the link
    of text [t] and url [u], and what follows is dropped. *)
Theorem link_at_start :
  forall t u rest,
    Py.contains "]" t = false -> Py.contains ")" u = false ->
    _parse_rich_text ("[" ++ t ++ "](" ++ u ++ ")" ++ rest)
    = Ok (link_span t u).
Proof.
  intros t u rest Ht Hu.
  assert (Hnt := contains_char_false _ _ Ht).
  assert (Hnu := contains_char_false _ _ Hu).
  set (text := ("[" ++ t ++ "](" ++ u ++ ")" ++ rest)%string).
  set (j := 1 + String.length t).
  set (k := j + 2 + String.length u).
  assert (Hj : Py.find text "]" 0 = Some j).
  { unfold text, j.
    rewrite <- (append_assoc "[" t ("](" ++ u ++ ")" ++ rest)).
    apply (find_char_after ("[" ++ t) "]" ("(" ++ u ++ ")" ++ rest) 0);
      [lia|].
    intros q _ Hq. destruct q as [|q]; [discriminate|]. simpl. apply Hnt. }
  assert (Etext : text = (("[" ++ t ++ "](") ++ u ++ ")" ++ rest)%string).
  { unfold text. rewrite !append_assoc. reflexivity. }
  assert (Elen : String.length ("[" ++ t ++ "](") = j + 2).
  { unfold j. simpl. rewrite length_append. simpl. lia. }
  assert (Hparen : Py.slice text (j + 1) (j + 2) = "(").
  { unfold Py.slice.
    replace (j + 2 - (j + 1)) with (String.length "(") by (simpl; lia).
    replace (j + 1) with (String.length ("[" ++ t ++ "]"))
      by (unfold j; simpl; rewrite length_append; simpl; lia).
    unfold text.
    replace ("[" ++ t ++ "](" ++ u ++ ")" ++ rest)%string
      with (("[" ++ t ++ "]") ++ "(" ++ u ++ ")" ++ rest)%string
      by (rewrite !append_assoc; reflexivity).
    apply substring_mid. }
  assert (Hk : Py.find text ")" (j + 1) = Some k).
  { rewrite Etext. unfold k. rewrite <- Elen, <- length_append.
    rewrite <- (append_assoc _ u (")" ++ rest)).
    apply (find_char_after (("[" ++ t ++ "](") ++ u) ")" rest (j + 1)).
    - rewrite length_append, Elen. lia.
    - intros q Hq1 Hq2. rewrite length_append, Elen in Hq2.
      destruct (Nat.eq_dec q (j + 1)) as [->|Hq].
      + rewrite get_app_l by (rewrite Elen; lia).
        replace (j + 1) with (String.length ("[" ++ t ++ "]") + 0)
          by (unfold j; simpl; rewrite length_append; simpl; lia).
        replace ("[" ++ t ++ "](")%string with (("[" ++ t ++ "]") ++ "(")%string
          by (rewrite !append_assoc; reflexivity).
        rewrite get_app_r. discriminate.
      + replace q with (String.length ("[" ++ t ++ "](") + (q - (j + 2)))
          by (rewrite Elen; lia).
        rewrite get_app_r. apply Hnu. }
  assert (Hg0 : get 0 text = Some "["%char) by reflexivity.
  assert (Hs2 : (Py.slice text 0 (0 + 2) =? "**")%string = false).
  { rewrite slice_width, (substring_get _ _ _ _ Hg0). reflexivity. }
  assert (Hs1 : (Py.slice text 0 (0 + 1) =? "[")%string = true).
  { rewrite slice_width, (substring_get _ _ _ _ Hg0), substring_S_0.
    reflexivity. }
  assert (Ht' : Py.slice text (0 + 1) j = t).
  { unfold Py.slice, j.
    replace (1 + String.length t - (0 + 1)) with (String.length t) by lia.
    apply (substring_mid "[" t ("](" ++ u ++ ")" ++ rest)). }
  assert (Hu' : Py.slice text (j + 2) k = u).
  { unfold Py.slice, k.
    replace (j + 2 + String.length u - (j + 2)) with (String.length u) by lia.
    rewrite Etext, <- Elen. apply substring_mid. }
  apply (first_step_head text (k + 1) "" (link_span t u) []); [discriminate|].
  unfold scan_body, italic_here, link_at, Py.getitem.
  rewrite Hs2, Hg0. cbn [bind Ascii.eqb Bool.eqb]. rewrite Hs1, Hj.
  cbv beta iota. rewrite Hparen. cbn [String.eqb Ascii.eqb Bool.eqb andb].
  rewrite Hk. cbv beta iota. rewrite Ht', Hu'. reflexivity.
Qed.

(** A link whose text holds a bracket and whose url is cut at the first
    [")"]. *)
Lemma link_at_start_witness :
  _parse_rich_text "[a [b](http://x/y(z)) tail"
  = Ok (link_span "a [b" "http://x/y(z").
Proof.
  apply (link_at_start "a [b" "http://x/y(z" ") tail"); reflexivity.
Defined.

(** ** The shape of the spans *)

Lemma flush_Forall_truthy (P : rich_text -> Prop) current result :
  (current <> "" -> P (text_span current)) ->
  Forall P result -> Forall P (flush current result).
Proof.
  intros Hc Hr. unfold flush. destruct current as [|c current]; [exact Hr|].
  apply Forall_app. split; [exact Hr|]. constructor; [|constructor].
  apply Hc. discriminate.
Qed.

Lemma text_span_wf current : current <> "" -> span_wf (text_span current).
Proof. intros H _. exact H. Qed.

Lemma scan_body_wf text st st' :
  scan_body text st = Ok st' ->
  Forall span_wf (snd st) -> Forall span_wf (snd st').
Proof.
  destruct st as [[i current] result]. unfold scan_body. simpl snd.
  intros H Hr.
  assert (Hf : Forall span_wf (flush current result))
    by (apply flush_Forall_truthy; [apply text_span_wf|exact Hr]).
  assert (Hadd : forall s, span_wf s ->
                           Forall span_wf (flush current result ++ [s])).
  { intros s Hs. apply Forall_app. split; [exact Hf|]. repeat constructor.
    exact Hs. }
  destruct (Py.slice text i (i + 2) =? "**")%string.
  { injection H as <-. apply Hadd. intros E. discriminate E. }
  destruct (italic_here text i) as [[|]| |]; cbn [bind] in H; try discriminate.
  { injection H as <-. apply Hadd. intros E. discriminate E. }
  destruct (Py.slice text i (i + 1) =? "[")%string.
  - unfold link_at in H.
    destruct (Py.find text "]" i) as [j|].
    + destruct (Py.slice text (j + 1) (j + 2) =? "(")%string.
      * destruct (Py.find text ")" (j + 1)) as [k|] eqn:Ek.
        -- injection H as <-. apply Hadd. split; [reflexivity|].
           apply closing_slice_free with (start := j + 1);
             [discriminate|left; exact Ek|lia].
        -- destruct (Py.getitem text i); cbn [bind] in H; try discriminate.
           injection H as <-. exact Hf.
      * destruct (Py.getitem text i); cbn [bind] in H; try discriminate.
        injection H as <-. exact Hf.
    + destruct (Py.getitem text i); cbn [bind] in H; try discriminate.
      injection H as <-. exact Hf.
  - destruct (Py.getitem text i); cbn [bind] in H; try discriminate.
    injection H as <-. exact Hr.
Qed.

(** Every span the scan builds, and so the span returned for a text that is
    not empty, is well formed: a link has no annotation and no [")"] in its
    url, and a plain span that is no link is not empty. *)
Theorem spans_well_formed :
  forall text,
    exists result s,
      scan_spans text = Ok result /\ Forall span_wf result /\
      _parse_rich_text text = Ok s /\ (text <> "" -> span_wf s).
Proof.
  intros text.
  destruct (scan_loop_total text) as (i & c & r & E).
  assert (Hr : Forall span_wf r).
  { apply (while_invariant _ _ (fun st => Forall span_wf (snd st)))
      with (s := (0, "", @nil rich_text)) in E.
    - apply E.
    - intros st st' Hs _ Hb. exact (scan_body_wf _ _ _ Hb Hs).
    - constructor. }
  assert (Es : scan_spans text = Ok (flush c r))
    by (unfold scan_spans; rewrite E; reflexivity).
  assert (Hw : Forall span_wf (flush c r))
    by (apply flush_Forall_truthy; [apply text_span_wf|exact Hr]).
  exists (flush c r), (hd (text_span "") (flush c r)).
  split; [exact Es|]. split; [exact Hw|].
  split; [apply parse_rich_text_hd, Es|].
  intros Hne. destruct (scan_spans_spec text) as (result & Es' & _ & Hn).
  rewrite Es in Es'. injection Es' as <-.
  destruct (flush c r) as [|s l]; [destruct (Hn Hne); reflexivity|].
  inversion Hw; assumption.
Qed.

(** At a text: the span returned for ["[x](a)b)"] is a link without
    annotation whose url stops before the first [")"]. *)
Lemma spans_well_formed_witness :
  exists s, _parse_rich_text "[x](a)b)" = Ok s /\ span_wf s /\
            link s = Some "a".
Proof.
  destruct (spans_well_formed "[x](a)b)") as (result & s & _ & _ & Es & Hs).
  exists s. split; [exact Es|]. split; [apply Hs; discriminate|].
  assert (E : _parse_rich_text "[x](a)b)" = Ok (link_span "x" "a"))
    by reflexivity.
  rewrite E in Es. injection Es as <-. reflexivity.
Defined.

(** ** Blank lines and the number of blocks *)

Lemma seg_body_blank lines i blocks line :
  nth_error lines i = Some line -> blank line = true ->
  seg_body lines (i, blocks) = Ok (i + 1, blocks).
Proof.
  intros Hl Hb. unfold seg_body, Py.getitem_list. rewrite Hl. cbn [bind].
  unfold blank in Hb. rewrite Hb. reflexivity.
Qed.

Lemma filter_skipn_middle {A} (p : A -> bool) (l : list A) i x :
  nth_error l i = Some x ->
  List.length (filter p (skipn i l))
  = (if p x then 1 else 0) + List.length (filter p (skipn (S i) l)).
Proof.
  intros H. rewrite (skipn_nth_error _ _ _ H). simpl.
  destruct (p x); reflexivity.
Qed.

Lemma filter_skipn_le {A} (p : A -> bool) (l : list A) :
  forall i j, i <= j ->
    List.length (filter p (skipn j l)) <= List.length (filter p (skipn i l)).
Proof.
  intros i j H. induction H as [|j H IH]; [lia|].
  etransitivity; [|exact IH].
  destruct (nth_error l j) as [x|] eqn:E.
  - rewrite (filter_skipn_middle p l j x E). lia.
  - rewrite (skipn_nth_error_None _ _ E).
    rewrite skipn_all2; [simpl; lia|].
    apply nth_error_None in E. lia.
Qed.

(** From any cursor the loop appends at most one block for each of the
    lines ahead that are not blank. *)
Lemma seg_loop_count lines :
  forall fuel i,
    List.length lines - i <= fuel ->
    exists i' new,
      List.length new
      <= List.length (filter (fun l => negb (blank l)) (skipn i lines)) /\
      forall blocks,
        while fuel (seg_cond lines) (seg_body lines) (i, blocks)
        = Ok (i', blocks ++ new).
Proof.
  induction fuel as [|fuel IH]; intros i Hf.
  - exists i, []. split; [simpl; lia|]. intros blocks. rewrite app_nil_r.
    apply while_exit, seg_cond_ge. lia.
  - destruct (Nat.ltb_spec i (List.length lines)) as [Hi|Hi].
    + destruct (nth_error_lt lines i Hi) as [line Hl].
      destruct (seg_body_spec lines i line Hl)
        as (i1 & new1 & Hlt & Hlen1 & _ & _ & E).
      destruct (IH i1) as (i' & new & Hn & Hw); [lia|].
      assert (Hcount : List.length new1 + List.length new
                       <= List.length (filter (fun l => negb (blank l))
                                             (skipn i lines))).
      { rewrite (filter_skipn_middle _ lines i line Hl).
        assert (Hle := filter_skipn_le (fun l => negb (blank l)) lines
                         (S i) i1 Hlt).
        destruct (blank line) eqn:Eb; cbn [negb]; [|lia].
        specialize (E []). rewrite (seg_body_blank _ _ _ _ Hl Eb) in E.
        injection E as _ E. cbn [app] in E. subst new1.
        cbn [List.length]. lia. }
      exists i', (new1 ++ new). split; [rewrite length_app; exact Hcount|].
      intros blocks. rewrite while_unfold, seg_cond_lt by exact Hi.
      rewrite E. cbn [bind]. rewrite Hw, app_assoc. reflexivity.
    + exists i, []. split; [simpl; lia|]. intros blocks. rewrite app_nil_r.
      apply while_exit, seg_cond_ge. lia.
Qed.

(** The segmenter builds at most one block for each line that is not
    blank. *)
Theorem blocks_at_most_nonblank_lines :
  forall content,
    exists blocks,
      all_blocks content = Ok blocks /\
      List.length blocks
      <= List.length (filter (fun l => negb (blank l))
                            (Py.split content Py.LF)).
Proof.
  intros content. unfold all_blocks.
  destruct (seg_loop_count (Py.split content Py.LF)
              (List.length (Py.split content Py.LF)) 0)
    as (i & new & Hn & E); [lia|].
  rewrite E. cbn [bind]. exists new. split; [reflexivity|exact Hn].
Qed.

Lemma filter_blank ls :
  Forall (fun l => blank l = true) ls ->
  filter (fun l => negb (blank l)) ls = [].
Proof.
  induction 1 as [|l ls Hl _ IH]; [reflexivity|].
  simpl. rewrite Hl. exact IH.
Qed.

(** A document of blank lines only gives no block. *)
Theorem blank_document_no_blocks :
  forall content,
    Forall (fun l => blank l = true) (Py.split content Py.LF) ->
    markdown_to_blocks content = Ok [].
Proof.
  intros content Hb. unfold markdown_to_blocks, all_blocks.
  destruct (seg_loop_count (Py.split content Py.LF)
              (List.length (Py.split content Py.LF)) 0)
    as (i & new & Hn & E); [lia|].
  rewrite E. cbn [bind].
  simpl skipn in Hn. rewrite (filter_blank _ Hb) in Hn.
  destruct new; [reflexivity|simpl in Hn; lia].
Qed.

(** A document of three lines of white space. *)
Lemma blank_document_no_blocks_witness :
  markdown_to_blocks (" " ++ Py.nl ++ Py.nl ++ String "009" "")%string = Ok [].
Proof.
  apply blank_document_no_blocks. repeat constructor.
Defined.

(** ** The divider and the lines of four hashes *)

Lemma mem_dividers s :
  Py.mem s ["---"; "***"; "___"] = true ->
  s = "---" \/ s = "***" \/ s = "___".
Proof.
  unfold Py.mem. cbn [existsb]. rewrite !orb_true_iff, !String.eqb_eq.
  intros [H|[H|[H|H]]]; auto. discriminate H.
Qed.

(** The divider rule. *)
Lemma seg_body_divider lines i blocks line :
  nth_error lines i = Some line ->
  Py.mem (Py.strip line) ["---"; "***"; "___"] = true ->
  seg_body lines (i, blocks) = Ok (i + 1, blocks ++ [divider]).
Proof.
  intros Hl Hm. assert (Hs := mem_dividers _ Hm).
  assert (Hh : forall p, Py.startswith line (String "#" p) = false).
  { intros p. destruct (Py.startswith line (String "#" p)) eqn:E; auto.
    destruct (startswith_strip_head _ _ _ E eq_refl) as [r Hr].
    rewrite Hr in Hs. destruct Hs as [H|[H|H]]; discriminate H. }
  unfold seg_body, Py.getitem_list. rewrite Hl. cbn [bind].
  rewrite !Hh, Hm.
  destruct Hs as [H|[H|H]]; rewrite H; reflexivity.
Qed.

(** When the loop comes to a line whose trimmed form is ["---"], ["***"] or
    ["___"], the segmenter appends a divider; the stars of ["***"] are not
    read as bold or italic markers. *)
Theorem divider_rule :
  forall content i before line,
    at_line content i before line ->
    Py.mem (Py.strip line) ["---"; "***"; "___"] = true ->
    emits content before divider (i + 1).
Proof.
  intros content i before line Hat Hm.
  apply (at_line_emits content i before line); [exact Hat|].
  intros blocks. apply (seg_body_divider _ _ _ line); [apply Hat|exact Hm].
Qed.

(** A divider of stars with white space around it, after a paragraph. *)
Lemma divider_rule_witness :
  emits ("a" ++ Py.nl ++ "  *** ")%string [paragraph [text_span "a"]] divider 2.
Proof.
  apply (divider_rule _ 1 _ "  *** ").
  - split.
    + eapply reached_step; [apply reached_start|simpl; lia|reflexivity].
    + reflexivity.
  - reflexivity.
Defined.

Lemma four_hashes_not_before_table r :
  before_table (String "#" (String "#" (String "#" (String "#" r)))) = false.
Proof.
  unfold before_table, before_quote.
  destruct (strip_head "#" (String "#" (String "#" (String "#" r))) eq_refl)
    as [t ->].
  reflexivity.
Qed.

(** A line that starts with four hashes is no heading.  When the loop comes
    to it the segmenter appends a paragraph; its span is the one
    [_parse_rich_text] returns for the whole line, hashes included, or for
    the table text of the line when the line contains ["|"]. *)
Theorem four_hashes_paragraph :
  forall content i before line,
    at_line content i before line ->
    Py.startswith line "####" = true ->
    exists s,
      emits content before (paragraph [s]) (i + 1) /\
      _parse_rich_text
        (if Py.contains "|" line
         then Py.join " | " (map Py.strip (Py.slice_1_m1 (Py.split line "|")))
         else line)
      = Ok s.
Proof.
  intros content i before line Hat Hh.
  assert (Hl := proj2 Hat).
  assert (Hb : before_table line = false /\
               Py.startswith (Py.strip line) "|" = false).
  { apply startswith_head in Hh as (r1 & -> & Hh).
    apply startswith_head in Hh as (r2 & -> & Hh).
    apply startswith_head in Hh as (r3 & -> & Hh).
    apply startswith_head in Hh as (r4 & -> & _).
    split; [apply four_hashes_not_before_table|].
    destruct (strip_head "#" (String "#" (String "#" (String "#" r4))) eq_refl)
      as [t ->].
    reflexivity. }
  destruct Hb as [Hb Hp].
  destruct (Py.contains "|" line) eqn:Ec.
  - destruct (at_line_emits_span content i before line
                (table_text line) (fun s => paragraph [s]) Hat) as (s & Es & He).
    + intros blocks. apply seg_body_table; assumption.
    + exists s. split; [exact He|exact Es].
  - destruct (at_line_emits_span content i before line
                line (fun s => paragraph [s]) Hat) as (s & Es & He).
    + intros blocks. apply seg_body_paragraph; [assumption..|].
      rewrite Ec. reflexivity.
    + exists s. split; [exact He|exact Es].
Qed.

(** A line of level four: the hashes stay in the paragraph. *)
Lemma four_hashes_paragraph_witness :
  exists s,
    emits "#### Title" [] (paragraph [s]) 1 /\
    _parse_rich_text "#### Title" = Ok s.
Proof.
  apply (four_hashes_paragraph "#### Title" 0 [] "#### Title").
  - split; [apply reached_start|reflexivity].
  - reflexivity.
Defined.

(** ** Documents put one after the other *)

Lemma split_app a b :
  Py.split (a ++ Py.nl ++ b) Py.LF = Py.split a Py.LF ++ Py.split b Py.LF.
Proof.
  induction a as [|c a IH]; [reflexivity|].
  change (String c a ++ Py.nl ++ b)%string with (String c (a ++ Py.nl ++ b)).
  cbn [Py.split]. rewrite IH.
  destruct (Ascii.eqb c Py.LF); [reflexivity|].
  destruct (Py.split a Py.LF) as [|f fs] eqn:E;
    [destruct (split_nonempty _ _ E)|].
  reflexivity.
Qed.

(** On a line that does not start with the fence, an iteration depends on
    the line only: it is the same in another list of lines, at another
    cursor, but for the cursor. *)
Lemma seg_body_local l1 i l2 j line blocks i' bs' :
  nth_error l1 i = Some line -> nth_error l2 j = Some line ->
  Py.startswith line fence = false ->
  seg_body l1 (i, blocks) = Ok (i', bs') ->
  i' = i + 1 /\ seg_body l2 (j, blocks) = Ok (j + 1, bs').
Proof.
  intros H1 H2 Hf. unfold seg_body, Py.getitem_list, _heading_block.
  rewrite H1, H2. cbn [bind].
  assert (Hfin : forall (r : result rich_text) (b : rich_text -> block),
            (s <- r ;; Ok (i + 1, blocks ++ [b s])) = Ok (i', bs') ->
            i' = i + 1 /\
            (s <- r ;; Ok (j + 1, blocks ++ [b s])) = Ok (j + 1, bs')).
  { intros [s| |] b H; cbn [bind] in *; try discriminate.
    injection H as <- <-. auto. }
  destruct (negb (Py.truthy (Py.strip line))).
  { intros H. injection H as <- <-. auto. }
  destruct (Py.startswith line "# ").
  { destruct (_parse_rich_text (Py.slice_from line 2)) as [s| |];
      cbn [bind]; intros H; try discriminate. injection H as <- <-. auto. }
  destruct (Py.startswith line "## ").
  { destruct (_parse_rich_text (Py.slice_from line 3)) as [s| |];
      cbn [bind]; intros H; try discriminate. injection H as <- <-. auto. }
  destruct (Py.startswith line "### ").
  { destruct (_parse_rich_text (Py.slice_from line 4)) as [s| |];
      cbn [bind]; intros H; try discriminate. injection H as <- <-. auto. }
  destruct (Py.mem (Py.strip line) ["---"; "***"; "___"]).
  { intros H. injection H as <- <-. auto. }
  destruct (Py.startswith line "> ").
  { intros H. injection H as <- <-. auto. }
  rewrite Hf.
  destruct (Py.startswith (Py.strip line) "- " || Py.startswith (Py.strip line) "* ").
  { apply (Hfin _ (fun s => bulleted_list_item [s])). }
  destruct (Py.re_match_numbered line).
  { apply (Hfin _ (fun s => numbered_list_item [s])). }
  destruct (Py.contains "|" line && negb (Py.startswith (Py.strip line) "|")).
  { apply (Hfin _ (fun s => paragraph [s])). }
  apply (Hfin _ (fun s => paragraph [s])).
Qed.

Lemma code_lines_of_app xs ys :
  List.length (code_lines_of xs) < List.length xs ->
  code_lines_of (xs ++ ys) = code_lines_of xs.
Proof.
  induction xs as [|x xs IH]; cbn [code_lines_of app List.length];
    [intros H; inversion H|].
  destruct (Py.startswith x fence); [reflexivity|].
  cbn [List.length]. intros H. f_equal. apply IH. lia.
Qed.

(** An iteration that stays inside the first lines of a list is the same
    in the first lines alone. *)
Lemma seg_body_prefix la lb i blocks i' bs' :
  seg_body la (i, blocks) = Ok (i', bs') ->
  i < List.length la -> i' <= List.length la ->
  seg_body (la ++ lb) (i, blocks) = Ok (i', bs').
Proof.
  intros Hb Hi Hi'. destruct (nth_error_lt la i Hi) as [line Hl].
  assert (Hl' : nth_error (la ++ lb) i = Some line)
    by (rewrite nth_error_app1; assumption).
  destruct (Py.startswith line fence) eqn:Hf.
  - rewrite (seg_body_fence _ _ _ _ Hl Hf) in Hb.
    rewrite (seg_body_fence _ _ _ _ Hl' Hf). cbv zeta in *.
    injection Hb as Hcur Hbs.
    assert (Hsk : skipn (i + 1) (la ++ lb) = skipn (i + 1) la ++ lb).
    { rewrite skipn_app. replace (i + 1 - List.length la) with 0 by lia.
      reflexivity. }
    rewrite Hsk, code_lines_of_app; [rewrite Hcur, Hbs; reflexivity|].
    rewrite length_skipn. lia.
  - destruct (seg_body_local _ _ _ _ _ _ _ _ Hl Hl' Hf Hb) as [-> H].
    exact H.
Qed.

(** An iteration in the last lines of a list is the iteration in the last
    lines alone, the cursor moved by the number of the first lines. *)
Lemma seg_body_shift la lb i blocks i' bs' :
  seg_body lb (i, blocks) = Ok (i', bs') ->
  i < List.length lb ->
  seg_body (la ++ lb) (List.length la + i, blocks)
  = Ok (List.length la + i', bs').
Proof.
  intros Hb Hi. destruct (nth_error_lt lb i Hi) as [line Hl].
  assert (Hl' : nth_error (la ++ lb) (List.length la + i) = Some line).
  { rewrite nth_error_app2 by lia.
    replace (List.length la + i - List.length la) with i by lia. exact Hl. }
  destruct (Py.startswith line fence) eqn:Hf.
  - rewrite (seg_body_fence _ _ _ _ Hl Hf) in Hb.
    rewrite (seg_body_fence _ _ _ _ Hl' Hf). cbv zeta in *.
    injection Hb as Hcur Hbs.
    assert (Hsk : skipn (List.length la + i + 1) (la ++ lb) = skipn (i + 1) lb).
    { rewrite skipn_app, skipn_all2 by lia.
      replace (List.length la + i + 1 - List.length la) with (i + 1) by lia.
      reflexivity. }
    rewrite Hsk, Hbs. f_equal. f_equal. lia.
  - destruct (seg_body_local _ _ _ _ _ _ _ _ Hl Hl' Hf Hb) as [-> H].
    rewrite H. f_equal. f_equal. lia.
Qed.

Lemma reached_prefix la lb i blocks :
  reached la i blocks -> i <= List.length la -> reached (la ++ lb) i blocks.
Proof.
  induction 1 as [|i blocks i' blocks' _ IH Hi Hb]; intros Hle.
  - constructor.
  - apply reached_step with (i := i) (blocks := blocks).
    + apply IH. lia.
    + rewrite length_app. lia.
    + apply seg_body_prefix; assumption.
Qed.

Lemma seg_loop_shift la lb :
  forall fuel i blocks i' blocks',
    while fuel (seg_cond lb) (seg_body lb) (i, blocks) = Ok (i', blocks') ->
    while fuel (seg_cond (la ++ lb)) (seg_body (la ++ lb))
      (List.length la + i, blocks)
    = Ok (List.length la + i', blocks').
Proof.
  induction fuel as [|fuel IH]; intros i blocks i' blocks' H.
  - simpl in H. destruct (i <? List.length lb) eqn:E; [discriminate|].
    injection H as <- <-. apply while_exit, seg_cond_ge.
    apply Nat.ltb_ge in E. rewrite length_app. lia.
  - rewrite while_unfold in H. unfold seg_cond at 1 in H.
    destruct (i <? List.length lb) eqn:E.
    + apply Nat.ltb_lt in E.
      destruct (seg_body lb (i, blocks)) as [[i1 bs1]| |] eqn:Eb;
        cbn [bind] in H; try discriminate.
      rewrite while_unfold, seg_cond_lt by (rewrite length_app; lia).
      rewrite (seg_body_shift la lb _ _ _ _ Eb E). cbn [bind].
      apply IH, H.
    + injection H as <- <-. apply while_exit, seg_cond_ge.
      apply Nat.ltb_ge in E. rewrite length_app. lia.
Qed.

(** Two documents joined by a line feed give the blocks of the first
    followed by the blocks of the second, when the scan of the first ends on
    its last line, that is, when no code block of the first is left open. *)
Theorem blocks_of_joined_documents :
  forall a b blocks_a,
    reached (Py.split a Py.LF) (List.length (Py.split a Py.LF)) blocks_a ->
    exists blocks_b,
      all_blocks a = Ok blocks_a /\
      all_blocks b = Ok blocks_b /\
      all_blocks (a ++ Py.nl ++ b) = Ok (blocks_a ++ blocks_b).
Proof.
  intros a b blocks_a Hr.
  set (la := Py.split a Py.LF) in *. set (lb := Py.split b Py.LF).
  destruct (blocks_from_total lb 0) as (blocks_b & Eb & _).
  exists blocks_b. split; [|split; [exact Eb|]].
  - destruct (reached_blocks la _ _ Hr) as (after & Ea & E0).
    unfold blocks_from in Ea. rewrite while_exit in Ea
      by (apply seg_cond_ge; lia).
    injection Ea as <-. rewrite app_nil_r in E0. exact E0.
  - assert (Hr' := reached_prefix la lb _ _ Hr (Nat.le_refl _)).
    destruct (reached_blocks (la ++ lb) _ _ Hr') as (after & Ea & E0).
    assert (Eab : all_blocks (a ++ Py.nl ++ b) = blocks_from (la ++ lb) 0).
    { unfold all_blocks, blocks_from. rewrite split_app. reflexivity. }
    rewrite Eab, E0. f_equal. f_equal.
    unfold blocks_from in Eb.
    destruct (while (List.length lb) (seg_cond lb) (seg_body lb) (0, []))
      as [[j bs]| |] eqn:Ew; cbn [bind] in Eb; try discriminate.
    injection Eb as ->.
    apply (seg_loop_shift la lb) in Ew.
    apply while_fuel_mono with (fuel' := List.length (la ++ lb)) in Ew;
      [|rewrite length_app; lia].
    unfold blocks_from in Ea. rewrite Nat.add_0_r in Ew. rewrite Ew in Ea.
    cbn [bind] in Ea. congruence.
Qed.

(** Two documents, the first with a code block that is closed. *)
Lemma blocks_of_joined_documents_witness :
  exists blocks_b,
    all_blocks ("```" ++ Py.nl ++ "x" ++ Py.nl ++ "```")%string
    = Ok [code "plain text" [text_span "x"]] /\
    all_blocks "# b" = Ok blocks_b /\
    all_blocks (("```" ++ Py.nl ++ "x" ++ Py.nl ++ "```") ++ Py.nl ++ "# b")%string
    = Ok ([code "plain text" [text_span "x"]] ++ blocks_b).
Proof.
  apply blocks_of_joined_documents.
  eapply reached_step; [apply reached_start|simpl; lia|reflexivity].
Defined.

(** ** A fence left open, and the title of a heading *)

Lemma code_lines_of_all ls :
  Forall (fun l => Py.startswith l fence = false) ls -> code_lines_of ls = ls.
Proof.
  induction 1 as [|l ls Hl _ IH]; [reflexivity|].
  cbn [code_lines_of]. rewrite Hl, IH. reflexivity.
Qed.

(** When the loop comes to a line that starts with the fence and no later
    line starts with the fence, the code block takes all the lines that
    follow and is the last block of the document: nothing after an open fence
    becomes a block of its own. *)
Theorem open_fence_takes_the_rest :
  forall content i before line,
    at_line content i before line ->
    Py.startswith line fence = true ->
    Forall (fun l => Py.startswith l fence = false)
      (skipn (i + 1) (Py.split content Py.LF)) ->
    all_blocks content
    = Ok (before ++
          [code (fence_language line)
                [text_span
                   (Py.join Py.nl (skipn (i + 1) (Py.split content Py.LF)))]]).
Proof.
  intros content i before line Hat Hf Hno.
  set (lines := Py.split content Py.LF) in *.
  assert (Hl := proj2 Hat). fold lines in Hl.
  assert (Hi : i < List.length lines) by (apply nth_error_Some; congruence).
  destruct (at_line_emits content i before line
              (i + 1 + List.length (skipn (i + 1) lines) + 1)
              (code (fence_language line)
                    [text_span (Py.join Py.nl (skipn (i + 1) lines))]) Hat)
    as (after & Ea & E & _).
  - intros blocks. fold lines. rewrite (seg_body_fence _ _ _ _ Hl Hf).
    cbv zeta. rewrite (code_lines_of_all _ Hno). reflexivity.
  - fold lines in Ea. unfold blocks_from in Ea.
    rewrite while_exit in Ea
      by (apply seg_cond_ge; rewrite length_skipn; lia).
    injection Ea as <-. exact E.
Qed.

(** A heading after an open fence is a line of the code block. *)
Lemma open_fence_takes_the_rest_witness :
  all_blocks ("a" ++ Py.nl ++ "```sh" ++ Py.nl ++ "ls" ++ Py.nl ++ "# Title")%string
  = Ok ([paragraph [text_span "a"]] ++
        [code "sh" [text_span ("ls" ++ Py.nl ++ "# Title")%string]]).
Proof.
  refine (open_fence_takes_the_rest
            ("a" ++ Py.nl ++ "```sh" ++ Py.nl ++ "ls" ++ Py.nl ++ "# Title")
            1 [paragraph [text_span "a"]] "```sh" _ _ _).
  - split.
    + eapply reached_step; [apply reached_start|simpl; lia|reflexivity].
    + reflexivity.
  - reflexivity.
  - repeat constructor.
Defined.

Lemma seg_body_heading lines i blocks line t :
  nth_error lines i = Some line ->
  Py.startswith line (heading_marker t) = true ->
  exists s,
    _parse_rich_text
      (Py.slice_from line (String.length (heading_marker t))) = Ok s /\
    seg_body lines (i, blocks) = Ok (i + 1, blocks ++ [heading t [s]]).
Proof.
  intros Hl Hh. destruct t.
  - apply seg_body_heading_1; assumption.
  - apply seg_body_heading_2; assumption.
  - apply seg_body_heading_3; assumption.
Qed.

(** The title of a heading that has no [*] and no [[] is kept as it is,
    with the white space around it: when the loop comes to a line made of the
    marker of a heading and such a title, the segmenter appends the heading of
    that level with the title as its one plain span. *)
Theorem heading_title_verbatim :
  forall content i before t title,
    at_line content i before (heading_marker t ++ title) ->
    plain_text title = true ->
    emits content before (heading t [text_span title]) (i + 1).
Proof.
  intros content i before t title Hat Hp.
  assert (Hs : Py.startswith (heading_marker t ++ title) (heading_marker t)
               = true).
  { unfold Py.startswith. apply prefix_correct. apply substring_0_app. }
  assert (Ht : _parse_rich_text title = Ok (text_span title)).
  { destruct title as [|c title]; [reflexivity|].
    rewrite <- (append_empty_r (String c title)) at 1.
    apply plain_prefix_span; [discriminate|exact Hp|reflexivity]. }
  destruct (at_line_emits_span content i before _
              (Py.slice_from (heading_marker t ++ title)
                 (String.length (heading_marker t)))
              (fun s => heading t [s]) Hat) as (s & Es & He).
  - intros blocks. apply seg_body_heading; [apply Hat|exact Hs].
  - rewrite slice_from_app, Ht in Es. injection Es as <-. exact He.
Qed.

(** A heading of level two whose title has white space around it. *)
Lemma heading_title_verbatim_witness :
  emits "##   Plan (v2)  " [] (heading heading_2 [text_span "  Plan (v2)  "]) 1.
Proof.
  apply (heading_title_verbatim "##   Plan (v2)  " 0 [] heading_2
           "  Plan (v2)  ").
  - split; [apply reached_start|reflexivity].
  - reflexivity.
Defined.

(** ** The lines of a code block, back from its content *)

Lemma contains_char_cons x c s :
  Py.contains (String x "") (String c s) = false ->
  c <> x /\ Py.contains (String x "") s = false.
Proof.
  unfold Py.contains, Py.find. cbn [index].
  rewrite prefix_cons.
  destruct (Ascii.eqb_spec x c) as [->|N]; cbn [andb].
  - destruct s; discriminate.
  - destruct (index 0 (String x "") s); [discriminate|]. auto.
Qed.

Lemma contains_char_cons_false x c s :
  c <> x -> Py.contains (String x "") s = false ->
  Py.contains (String x "") (String c s) = false.
Proof.
  unfold Py.contains, Py.find. cbn [index]. rewrite prefix_cons.
  intros N H. apply not_eq_sym, Ascii.eqb_neq in N. rewrite N. cbn [andb].
  destruct (index 0 (String x "") s); [discriminate|reflexivity].
Qed.

(** No field of [split] holds the separator. *)
Lemma split_fields s sep :
  Forall (fun f => Py.contains (String sep "") f = false) (Py.split s sep).
Proof.
  induction s as [|c s IH]; cbn [Py.split].
  - repeat constructor.
  - destruct (Ascii.eqb_spec c sep) as [->|N].
    + constructor; [reflexivity|exact IH].
    + destruct (Py.split s sep) as [|f fs]; [repeat constructor|].
      * apply contains_char_cons_false; [exact N|reflexivity].
      * inversion IH as [|? ? Hf Hfs]; subst. constructor; [|exact Hfs].
        apply contains_char_cons_false; assumption.
Qed.

Lemma split_one s sep :
  Py.contains (String sep "") s = false -> Py.split s sep = [s].
Proof.
  induction s as [|c s IH]; [reflexivity|].
  intros H. apply contains_char_cons in H as [N H].
  cbn [Py.split]. apply Ascii.eqb_neq in N. rewrite N, (IH H). reflexivity.
Qed.

Lemma split_app_sep a b sep :
  Py.split (a ++ String sep b) sep = Py.split a sep ++ Py.split b sep.
Proof.
  induction a as [|c a IH].
  - cbn [append Py.split]. rewrite Ascii.eqb_refl. reflexivity.
  - change (String c a ++ String sep b)%string
      with (String c (a ++ String sep b)).
    cbn [Py.split]. rewrite IH.
    destruct (Ascii.eqb c sep); [reflexivity|].
    destruct (Py.split a sep) as [|f fs] eqn:E;
      [destruct (split_nonempty _ _ E)|].
    reflexivity.
Qed.

(** [split] undoes [join] on a list, not empty, of strings without the
    separator. *)
Lemma split_join ls sep :
  ls <> [] ->
  Forall (fun f => Py.contains (String sep "") f = false) ls ->
  Py.split (Py.join (String sep "") ls) sep = ls.
Proof.
  intros Hne H. induction H as [|l ls Hl Hls IH]; [congruence|].
  destruct ls as [|l2 ls].
  - apply split_one, Hl.
  - change (Py.join (String sep "") (l :: l2 :: ls))
      with (l ++ String sep (Py.join (String sep "") (l2 :: ls)))%string.
    rewrite split_app_sep, (split_one _ _ Hl), IH by discriminate.
    reflexivity.
Qed.

Lemma Forall_skipn_list {A} (P : A -> Prop) (l : list A) n :
  Forall P l -> Forall P (skipn n l).
Proof.
  intros H. rewrite <- (firstn_skipn n l) in H.
  apply Forall_app in H. apply H.
Qed.

(** The lines of a code block are kept as they are: when the block has at
    least one line, splitting its content on line feeds gives back the lines
    between the fences. *)
Theorem code_block_lines_round_trip :
  forall content i before line,
    at_line content i before line ->
    Py.startswith line fence = true ->
    let body := code_lines_of (skipn (i + 1) (Py.split content Py.LF)) in
    body <> [] ->
    exists text,
      emits content before (code (fence_language line) [text_span text])
        (i + 1 + List.length body + 1) /\
      Py.split text Py.LF = body.
Proof.
  intros content i before line Hat Hf body Hne.
  exists (Py.join Py.nl body). split.
  - apply (at_line_emits content i before line); [exact Hat|].
    intros blocks. rewrite (seg_body_fence _ _ _ _ (proj2 Hat) Hf).
    reflexivity.
  - apply split_join; [exact Hne|].
    destruct (code_lines_of_spec (skipn (i + 1) (Py.split content Py.LF)))
      as (rest & E & _).
    fold body in E.
    assert (H := Forall_skipn_list _ _ (i + 1) (split_fields content Py.LF)).
    rewrite E in H. apply Forall_app in H. apply H.
Qed.

(** A code block of two lines, the second one empty. *)
Lemma code_block_lines_round_trip_witness :
  exists text,
    emits ("```" ++ Py.nl ++ "  x" ++ Py.nl ++ Py.nl ++ "```")%string []
      (code "plain text" [text_span text]) 4 /\
    Py.split text Py.LF = ["  x"; ""].
Proof.
  refine (code_block_lines_round_trip
            ("```" ++ Py.nl ++ "  x" ++ Py.nl ++ Py.nl ++ "```") 0 [] "```"
            _ _ _).
  - split; [apply reached_start|reflexivity].
  - reflexivity.
  - discriminate.
Defined.

(** ** The key of the client *)

(** The constructor gives a client exactly when a key that is not empty is
    passed, or the key file exists and the variable [NOTION_API_KEY] or the
    trimmed text of the file is not empty.  The key of the client is never
    empty, and without the file the variable alone is not used: the
    constructor raises [ValueError]. *)
Theorem client_constructed_iff :
  forall api_key e,
    ((exists key headers, __init__ api_key e = NotionSync key headers) <->
     (truthy_opt api_key = true \/
      exists contents,
        api_key_file e = Some contents /\
        (truthy_opt (env_api_key e) = true \/ Py.strip contents <> ""))) /\
    (forall key headers,
       __init__ api_key e = NotionSync key headers ->
       key <> "" /\ In ("Authorization", ("Bearer " ++ key)%string) headers) /\
    (truthy_opt api_key = false -> api_key_file e = None ->
     exists message, __init__ api_key e = ValueError message).
Proof.
  intros api_key [env file].
  assert (Ht : forall s, Py.truthy s = true <-> s <> "")
    by (intros [|c s]; simpl; split; congruence).
  unfold __init__, _load_api_key, or_else. cbn [api_key_file env_api_key].
  split; [|split].
  - split.
    + intros (key & headers & H).
      destruct (truthy_opt api_key) eqn:Ea; [auto|]. right.
      destruct file as [contents|]; [|discriminate].
      exists contents. split; [reflexivity|].
      destruct (truthy_opt env) eqn:Ee; [auto|]. right.
      cbn [negb] in H. destruct (Py.truthy (Py.strip contents)) eqn:E;
        [apply Ht, E|discriminate].
    + intros [Ha|(contents & -> & He)].
      * rewrite Ha. destruct api_key as [k|]; [|discriminate].
        simpl in Ha. rewrite Ha. cbn [negb]. eauto.
      * destruct (truthy_opt api_key) eqn:Ea.
        { destruct api_key as [k|]; [|discriminate].
          simpl in Ea. rewrite Ea. cbn [negb]. eauto. }
        destruct He as [He|He].
        -- rewrite He. destruct env as [k|]; [|discriminate].
           simpl in He. rewrite He. cbn [negb]. eauto.
        -- destruct (truthy_opt env) eqn:Ee.
           { destruct env as [k|]; [|discriminate].
             simpl in Ee. rewrite Ee. cbn [negb]. eauto. }
           apply Ht in He. rewrite He. cbn [negb]. eauto.
  - intros key headers H.
    destruct (if truthy_opt api_key then api_key
              else match file with
                   | Some contents =>
                       if truthy_opt env then env
                       else Some (Py.strip contents)
                   | None => None
                   end) as [k|]; [|discriminate].
    destruct (Py.truthy k) eqn:Ek; cbn [negb] in H; [|discriminate].
    injection H as <- <-. split; [apply Ht, Ek|]. left. reflexivity.
  - intros Ha ->. rewrite Ha. eauto.
Qed.

(** With [NOTION_API_KEY] set and no key file the constructor raises; with
    the file there, the variable is the key. *)
Lemma client_constructed_iff_witness :
  (exists message,
     __init__ None (mk_environment (Some "secret") None) = ValueError message) /\
  (exists key headers,
     __init__ None (mk_environment (Some "secret") (Some "other"))
     = NotionSync key headers /\ key <> "").
Proof.
  split.
  - apply (proj2 (proj2 (client_constructed_iff None
                           (mk_environment (Some "secret") None))));
      reflexivity.
  - destruct (proj2 (proj1 (client_constructed_iff None
                (mk_environment (Some "secret") (Some "other")))))
      as (key & headers & E).
    + right. exists "other". split; [reflexivity|]. left. reflexivity.
    + exists key, headers. split; [exact E|].
      apply (proj1 (proj2 (client_constructed_iff None
                (mk_environment (Some "secret") (Some "other")))) _ _ E).
Defined.

(** ** Content without content *)

Lemma lstrip_empty_iff s : Py.lstrip s = "" <-> all_space s = true.
Proof.
  induction s as [|c s IH]; cbn [Py.lstrip all_space]; [tauto|].
  destruct (Py.isspace c); cbn [andb]; [exact IH|].
  split; discriminate.
Qed.

Lemma lstrip_head_not_space s c r :
  Py.lstrip s = String c r -> Py.isspace c = false.
Proof.
  induction s as [|a s IH]; cbn [Py.lstrip]; [discriminate|].
  destruct (Py.isspace a) eqn:E; [exact IH|].
  intros H. injection H as <- _. exact E.
Qed.

Lemma blank_iff_all_space s : blank s = true <-> all_space s = true.
Proof.
  unfold blank, Py.strip. rewrite <- lstrip_empty_iff.
  destruct (Py.lstrip s) as [|c r] eqn:E.
  - simpl. tauto.
  - assert (Hc := lstrip_head_not_space _ _ _ E).
    cbn [Py.rstrip]. destruct (Py.rstrip r); [rewrite Hc|];
      simpl; split; discriminate.
Qed.

Lemma isspace_LF : Py.isspace Py.LF = true.
Proof. reflexivity. Qed.

(** A content is white space only exactly when all its lines are. *)
Lemma all_space_split s :
  all_space s = true <->
  Forall (fun l => all_space l = true) (Py.split s Py.LF).
Proof.
  induction s as [|c s IH]; cbn [Py.split all_space].
  - split; [repeat constructor|reflexivity].
  - destruct (Ascii.eqb_spec c Py.LF) as [->|N].
    + rewrite isspace_LF. cbn [andb]. rewrite IH. split.
      * intros H. constructor; [reflexivity|exact H].
      * intros H. inversion H; assumption.
    + destruct (Py.split s Py.LF) as [|f fs] eqn:E;
        [destruct (split_nonempty _ _ E)|].
      rewrite andb_true_iff, IH. split.
      * intros [Hc H]. inversion H as [|? ? Hf Hfs]; subst.
        constructor; [|exact Hfs]. cbn [all_space]. rewrite Hc, Hf.
        reflexivity.
      * intros H. inversion H as [|? ? Hf Hfs]; subst.
        cbn [all_space] in Hf. apply andb_prop in Hf as [Hc Hf].
        split; [exact Hc|]. constructor; assumption.
Qed.

Lemma no_content_iff_blank_lines content :
  no_content content = true <->
  Forall (fun l => blank l = true) (Py.split content Py.LF).
Proof.
  change (no_content content) with (blank content).
  rewrite blank_iff_all_space, all_space_split.
  split; apply Forall_impl; intros l; apply blank_iff_all_space.
Qed.

(** On a line that is not blank an iteration appends exactly one block. *)
Lemma seg_body_nonblank lines i line :
  nth_error lines i = Some line -> blank line = false ->
  exists i' b,
    forall blocks, seg_body lines (i, blocks) = Ok (i', blocks ++ [b]).
Proof.
  intros Hl Hb.
  destruct (seg_body_spec lines i line Hl) as (i' & new & _ & Hlen & _ & _ & E).
  destruct new as [|b [|b' new]]; [|eauto|simpl in Hlen; lia].
  exfalso. specialize (E []). revert E.
  unfold seg_body, Py.getitem_list, _heading_block. rewrite Hl. cbn [bind].
  unfold blank in Hb. rewrite Hb.
  assert (Hno : forall (r : result rich_text) (f : rich_text -> block) j,
            (s <- r ;; Ok (j, [] ++ [f s])) <> Ok (i', [] ++ [])).
  { intros [s| |] f j; cbn [bind]; discriminate. }
  destruct (Py.startswith line "# ").
  { destruct (_parse_rich_text (Py.slice_from line 2)); cbn [bind];
      discriminate. }
  destruct (Py.startswith line "## ").
  { destruct (_parse_rich_text (Py.slice_from line 3)); cbn [bind];
      discriminate. }
  destruct (Py.startswith line "### ").
  { destruct (_parse_rich_text (Py.slice_from line 4)); cbn [bind];
      discriminate. }
  destruct (Py.mem _ _); [discriminate|].
  destruct (Py.startswith line "> "); [discriminate|].
  destruct (Py.startswith line fence).
  { destruct (while _ _ _ _) as [[j cl]| |]; cbn [bind]; discriminate. }
  destruct (_ || _); [apply (Hno _ (fun s => bulleted_list_item [s]))|].
  destruct (Py.re_match_numbered line);
    [apply (Hno _ (fun s => numbered_list_item [s]))|].
  destruct (_ && _); apply (Hno _ (fun s => paragraph [s])).
Qed.

Lemma blank_not_fence line :
  blank line = true -> Py.startswith line fence = false.
Proof.
  intros Hb. destruct (Py.startswith line fence) eqn:E; [|reflexivity].
  destruct (startswith_strip_head _ _ _ E eq_refl) as [r Hr].
  unfold blank in Hb. rewrite Hr in Hb. discriminate.
Qed.

(** [markdown_to_blocks] returns no block exactly for the contents that
    [main] refuses, those that are empty once trimmed: whenever [main] goes on
    to the client, the request carries at least one block. *)
Theorem no_blocks_iff_no_content :
  forall content,
    markdown_to_blocks content = Ok [] <-> no_content content = true.
Proof.
  intros content. rewrite no_content_iff_blank_lines. split.
  - intros Hm.
    destruct (Forall_Exists_dec (fun l => blank l = true)
                (fun l => Bool.bool_dec (blank l) true)
                (Py.split content Py.LF)) as [H|H]; [exact H|].
    exfalso.
    assert (Hex : Exists (fun l => negb (blank l) = true)
                    (Py.split content Py.LF)).
    { revert H. apply Exists_impl. intros l Hl.
      destruct (blank l); [congruence|reflexivity]. }
    destruct (Exists_first _ _ Hex) as (i & line & Hl & Hnb & Hbefore).
    destruct (reached_no_fence (Py.split content Py.LF) i) as [before Hr].
    + apply Nat.lt_le_incl, nth_error_Some. congruence.
    + revert Hbefore. apply Forall_impl. intros l Hb.
      apply blank_not_fence. apply negb_false_iff, Hb.
    + apply negb_true_iff in Hnb.
      destruct (seg_body_nonblank _ _ _ Hl Hnb) as (i' & b & E).
      destruct (emitted content i before i' b Hr) as (after & _ & _ & Em);
        [apply nth_error_Some; congruence|exact E|].
      rewrite Em in Hm. injection Hm as Hm.
      destruct before; discriminate Hm.
  - intros Hb. assert (Hz := filter_blank _ Hb).
    unfold markdown_to_blocks, all_blocks.
    destruct (seg_loop_count (Py.split content Py.LF)
                (List.length (Py.split content Py.LF)) 0)
      as (i & new & Hn & E); [lia|].
    rewrite E. cbn [bind]. simpl skipn in Hn. rewrite Hz in Hn.
    destruct new; [reflexivity|simpl in Hn; lia].
Qed.

(** A content of white space gives no block, the content ["x"] gives some. *)
Lemma no_blocks_iff_no_content_witness :
  markdown_to_blocks (" " ++ Py.nl ++ String "009" "")%string = Ok [] /\
  markdown_to_blocks "x" <> Ok [].
Proof.
  split.
  - apply (proj2 (no_blocks_iff_no_content _)). reflexivity.
  - intros H. apply (proj1 (no_blocks_iff_no_content _)) in H. discriminate H.
Defined.
